(** * Gluten assistant: retrieval, classification, suggestions, response

    A shallow embedding of [RAGSystem] from [rag_v3.py]: the table loaders,
    [retrieve_relevant_info], [_generate_alternatives] and
    [generate_response], together with the pieces of the Python runtime
    and of pandas they stand on ([str.split], [str.lower], [in] on strings
    and sets, [Series.str.contains], boolean-mask indexing).

    Python strings are sequences of Unicode code points, so a [pystr] is a
    list of code points.  A data frame records which of its columns hold
    text, since the [.str] accessor raises on any other column.  A table
    row carries its [name] and [ingredients] cells as strings (on a string
    [str(x)] is [x]): in a column of text no cell is missing; rows with
    missing cells are outside this model. *)

From Stdlib Require Import NArith Ascii String Floats.
From stdpp Require Import base decidable numbers list strings gmap.

Local Open Scope N_scope.

(** ** Python strings *)

Definition codepoint := N.
Definition pystr := list N.

(** String literals of the source are written as UTF-8 text and decoded
    to code points. *)
Fixpoint utf8_go (need : nat) (acc : N) (s : string) : pystr :=
  match s with
  | EmptyString => []
  | String a s' =>
      let b := N_of_ascii a in
      match need with
      | O =>
          if b <? 0x80 then b :: utf8_go 0 0 s'
          else if b <? 0xE0 then utf8_go 1 (b - 0xC0) s'
          else if b <? 0xF0 then utf8_go 2 (b - 0xE0) s'
          else utf8_go 3 (b - 0xF0) s'
      | S O => (acc * 64 + (b - 0x80)) :: utf8_go 0 0 s'
      | S n => utf8_go n (acc * 64 + (b - 0x80)) s'
      end
  end.

Definition py (s : string) : pystr := utf8_go 0 0 s.

Definition LF : codepoint := 10.

(** [Py_UNICODE_ISSPACE]: the code points [str.split()] separates on. *)
Definition isspace (c : codepoint) : bool :=
  ((0x09 <=? c) && (c <=? 0x0D)) || ((0x1C <=? c) && (c <=? 0x20))
  || (c =? 0x85) || (c =? 0xA0) || (c =? 0x1680)
  || ((0x2000 <=? c) && (c <=? 0x200A))
  || (c =? 0x2028) || (c =? 0x2029) || (c =? 0x202F) || (c =? 0x205F)
  || (c =? 0x3000).

(** [str.split()] with no separator: one left-to-right scan; [cur] is the
    token being read (empty while skipping whitespace).  Runs of
    whitespace separate tokens, leading and trailing whitespace yields no
    empty token. *)
Fixpoint split_scan (cur : pystr) (s : pystr) : list pystr :=
  match s with
  | [] => match cur with [] => [] | _ => [cur] end
  | c :: s' =>
      if isspace c
      then match cur with
           | [] => split_scan [] s'
           | _ => cur :: split_scan [] s'
           end
      else split_scan (cur ++ [c]) s'
  end.

Definition split (s : pystr) : list pystr := split_scan [] s.

(** [needle in hay] on strings: [needle] occurs as a contiguous run. *)
Fixpoint startswith (hay needle : pystr) {struct needle} : bool :=
  match needle, hay with
  | [], _ => true
  | _ :: _, [] => false
  | n :: needle', h :: hay' => (n =? h) && startswith hay' needle'
  end.

Fixpoint substr_in (needle hay : pystr) : bool :=
  startswith hay needle
  || match hay with
     | [] => false
     | _ :: hay' => substr_in needle hay'
     end.

(** ** Exceptions *)

Inductive exn :=
  | KeyError (key : string)
  | AttributeError
  | FileNotFoundError
  | EmptyDataError
  | ParserError
  | re_error.

Inductive result (A : Type) :=
  | Return (a : A)
  | Raise (e : exn).

Arguments Return {A} a.
Arguments Raise {A} e.

#[global] Instance result_ret : MRet result := fun A a => Return a.
#[global] Instance result_bind : MBind result := fun A B f m =>
  match m with
  | Return a => f a
  | Raise e => Raise e
  end.
#[global] Instance result_fmap : FMap result := fun A B f m =>
  match m with
  | Return a => Return (f a)
  | Raise e => Raise e
  end.

(** ** What the Unicode database and the full [re] syntax decide

    [str.lower] and [re.IGNORECASE] are table-driven outside ASCII, and a
    pattern may use the whole [re] syntax.  The model fixes what CPython
    does on ASCII and on patterns made of ordinary characters and [.];
    the rest is a parameter, and every theorem holds for each choice. *)
Class Runtime := {
  (** [s.lower()] when [s] has a non-ASCII code point *)
  lower_nonascii : pystr -> pystr;
  (** whether a pattern character matches a subject character under
      [re.IGNORECASE] when one of the two is not ASCII *)
  ignorecase_nonascii : codepoint -> codepoint -> bool;
  (** [re.compile(pat, re.IGNORECASE)] for a pattern that uses a special
      character other than [.]: [re.error], or the search predicate *)
  compile_special : pystr -> result (pystr -> bool)
}.

Definition is_ascii (c : codepoint) : bool := c <? 0x80.

Definition ascii_tolower (c : codepoint) : codepoint :=
  if (0x41 <=? c) && (c <=? 0x5A) then c + 0x20 else c.

(** [str.lower]: CPython lowers an ASCII string byte by byte and hands any
    other string to the Unicode case operation. *)
Definition lower `{Runtime} (s : pystr) : pystr :=
  if forallb is_ascii s then map ascii_tolower s else lower_nonascii s.

(** ** Regular expressions, as [Series.str.contains] uses them *)
Module re.

(** [SPECIAL_CHARS] of the pattern parser. *)
Definition SPECIAL_CHARS : pystr := py ".\[{()*+?^$|".

Definition is_special (c : codepoint) : bool :=
  existsb (N.eqb c) SPECIAL_CHARS.

Inductive atom :=
  | Lit (c : codepoint)
  | Dot.

(** The parse of a pattern that has no special character but [.]. *)
Fixpoint parse (pat : pystr) : option (list atom) :=
  match pat with
  | [] => Some []
  | c :: pat' =>
      if c =? 0x2E then cons Dot <$> parse pat'
      else if is_special c then None
      else cons (Lit c) <$> parse pat'
  end.

Definition ignorecase_eq `{Runtime} (p c : codepoint) : bool :=
  if is_ascii p && is_ascii c
  then ascii_tolower p =? ascii_tolower c
  else ignorecase_nonascii p c.

(** [.] matches any character but a newline (no [DOTALL]). *)
Definition atom_matches `{Runtime} (a : atom) (c : codepoint) : bool :=
  match a with
  | Lit p => ignorecase_eq p c
  | Dot => negb (c =? LF)
  end.

Fixpoint match_here `{Runtime} (r : list atom) (s : pystr) : bool :=
  match r, s with
  | [], _ => true
  | _ :: _, [] => false
  | a :: r', c :: s' => atom_matches a c && match_here r' s'
  end.

(** [pattern.search(s) is not None]: a match at some position. *)
Fixpoint search `{Runtime} (r : list atom) (s : pystr) : bool :=
  match_here r s
  || match s with
     | [] => false
     | _ :: s' => search r s'
     end.

(** [re.compile(pat, flags=re.IGNORECASE)], as a search predicate. *)
Definition compile `{Runtime} (pat : pystr) : result (pystr -> bool) :=
  match parse pat with
  | Some r => Return (search r)
  | None => compile_special pat
  end.

End re.

(** ** Tables (pandas) *)

(** A row of the recipe or product table: the [name] and [ingredients]
    columns, and the extra columns [brand] and [gluten_status]. *)
Record Row := {
  name : pystr;
  ingredients : pystr;
  brand : option pystr;
  gluten_status : option bool
}.

(** A row of the nutritional reference table. *)
Record NutritionRow := {
  ingredient : pystr;
  gluten_content : pystr;
  alternative : pystr
}.

(** A data frame: its column labels, the labels of the columns that hold
    text (the others are numeric, boolean or all empty), and its rows in
    index order. *)
Record DataFrame (R : Type) := {
  columns : list string;
  text_columns : list string;
  iterrows : list R
}.

Arguments columns {R} d.
Arguments text_columns {R} d.
Arguments iterrows {R} d.

(** A column taken out of a frame: whether it holds text, and its cells. *)
Record Series := {
  is_text : bool;
  values : list pystr
}.

(** [pd.DataFrame()]: no columns, no rows. *)
Definition DataFrame_empty {R : Type} : DataFrame R :=
  {| columns := []; text_columns := []; iterrows := [] |}.

(** [df[col]]: the column as a series, [KeyError] when [df] has no such
    column. *)
Definition getitem {R : Type} (df : DataFrame R) (col : string)
    (cell : R -> pystr) : result Series :=
  if bool_decide (col ∈ columns df)
  then Return {| is_text := bool_decide (col ∈ text_columns df);
                 values := cell <$> iterrows df |}
  else Raise (KeyError col).

(** [series.str.contains(pat, case=False)].  The [.str] accessor raises
    [AttributeError] on a series that does not hold text, before the
    pattern is looked at.  [regex=True] is the default, so [pat] is then
    compiled as a regular expression with [re.IGNORECASE] and searched in
    every cell. *)
Definition str_contains `{Runtime} (series : Series) (pat : pystr)
    : result (list bool) :=
  if is_text series
  then found ← re.compile pat;
       mret (found <$> values series)
  else Raise AttributeError.

(** [m1 | m2] on boolean series of one length. *)
Definition series_or (m1 m2 : list bool) : list bool := zip_with orb m1 m2.

(** [df[mask]]: the rows whose mask entry is true, in order. *)
Fixpoint mask_rows {R : Type} (l : list R) (mask : list bool) : list R :=
  match l, mask with
  | x :: l', b :: mask' =>
      if b then x :: mask_rows l' mask' else mask_rows l' mask'
  | _, _ => []
  end.

Definition boolean_index {R : Type} (df : DataFrame R) (mask : list bool)
    : DataFrame R :=
  {| columns := columns df;
     text_columns := text_columns df;
     iterrows := mask_rows (iterrows df) mask |}.

(** ** The RAG system *)

Record GlutenAnalysisResult := {
  item_name : pystr;
  contains_gluten : bool;
  gluten_sources : list pystr;
  alternative_suggestions : list pystr;
  confidence_score : float;
  nutritional_details : gmap pystr pystr
}.

(** The dictionary [self.data_sources], keyed by the three [DataSource]
    members. *)
Record DataSources := {
  RECIPE_DATABASE : DataFrame Row;
  PRODUCT_CATALOG : DataFrame Row;
  NUTRITIONAL_DATABASE : DataFrame NutritionRow
}.

Record RAGSystem := {
  config : gmap string string;
  data_sources : DataSources;
  gluten_ingredients : gset pystr
}.

(** [pd.read_csv] on each path: what the file system and the parser give. *)
Record FileSystem := {
  read_rows : string -> result (DataFrame Row);
  read_nutrition : string -> result (DataFrame NutritionRow)
}.

(** [self.config[key]]. *)
Definition config_get (config : gmap string string) (key : string)
    : result string :=
  match config !! key with
  | Some v => Return v
  | None => Raise (KeyError key)
  end.

(** [try: return pd.read_csv(...) except Exception: return pd.DataFrame()] *)
Definition try_load {R : Type} (load : result (DataFrame R)) : DataFrame R :=
  match load with
  | Return df => df
  | Raise _ => DataFrame_empty
  end.

Definition _load_recipe_database (config : gmap string string)
    (fs : FileSystem) : DataFrame Row :=
  try_load (path ← config_get config "recipe_database_path"; read_rows fs path).

Definition _load_product_catalog (config : gmap string string)
    (fs : FileSystem) : DataFrame Row :=
  try_load (path ← config_get config "product_catalog_path"; read_rows fs path).

Definition _load_nutritional_database (config : gmap string string)
    (fs : FileSystem) : DataFrame NutritionRow :=
  try_load (path ← config_get config "nutritional_database_path";
            read_nutrition fs path).

Definition _load_gluten_ingredients : gset pystr :=
  {[ py "wheat"; py "barley"; py "rye"; py "couscous"; py "semolina";
     py "bulgur"; py "فريكة"; py "قمح"; py "شعير" ]}.

(** [RAGSystem.__init__], from the configuration once it is read. *)
Definition RAGSystem_init (config : gmap string string) (fs : FileSystem)
    : RAGSystem :=
  {| config := config;
     data_sources :=
       {| RECIPE_DATABASE := _load_recipe_database config fs;
          PRODUCT_CATALOG := _load_product_catalog config fs;
          NUTRITIONAL_DATABASE := _load_nutritional_database config fs |};
     gluten_ingredients := _load_gluten_ingredients |}.

Definition moroccan_alternatives : list (pystr * list pystr) :=
  [ (py "couscous", [py "quinoa"; py "rice"; py "corn couscous"]);
    (py "bread", [py "corn bread"; py "rice bread"]);
    (py "flour", [py "rice flour"; py "corn flour"]) ].

Definition _generate_alternatives `{Runtime} (item_name : pystr)
    : list pystr :=
  fold_left
    (fun alternatives '(item, subs) =>
       if substr_in item (lower item_name)
       then alternatives ++ subs
       else alternatives)
    moroccan_alternatives [].

(** The body of each of the two loops of [retrieve_relevant_info]. *)
Definition analyse `{Runtime} (self : RAGSystem) (item : Row)
    : GlutenAnalysisResult :=
  let contains_gluten :=
    existsb (fun ing => bool_decide (ing ∈ gluten_ingredients self))
            (split (ingredients item)) in
  {| item_name := name item;
     contains_gluten := contains_gluten;
     gluten_sources :=
       filter (fun ing => ing ∈ gluten_ingredients self)
              (split (ingredients item));
     alternative_suggestions := _generate_alternatives (name item);
     confidence_score := 0x1.999999999999ap-1%float;  (* 0.8 *)
     nutritional_details := ∅ |}.

(** [df[df['name'].str.contains(query, case=False)
        | df['ingredients'].str.contains(query, case=False)]] *)
Definition select_matches `{Runtime} (df : DataFrame Row) (query : pystr)
    : result (DataFrame Row) :=
  names ← getitem df "name" name;
  by_name ← str_contains names query;
  ingrs ← getitem df "ingredients" ingredients;
  by_ingredients ← str_contains ingrs query;
  mret (boolean_index df (series_or by_name by_ingredients)).

Definition retrieve_relevant_info `{Runtime} (self : RAGSystem)
    (query : pystr) : result (list GlutenAnalysisResult) :=
  recipe_matches ←
    select_matches (RECIPE_DATABASE (data_sources self)) query;
  product_matches ←
    select_matches (PRODUCT_CATALOG (data_sources self)) query;
  let results := [] in
  let results :=
    fold_left (fun results item => results ++ [analyse self item])
              (iterrows recipe_matches) results in
  let results :=
    fold_left (fun results item => results ++ [analyse self item])
              (iterrows product_matches) results in
  mret results.

(** The rows the two loops of [retrieve_relevant_info] run over: the
    recipe matches, then the product matches. *)
Definition search `{Runtime} (self : RAGSystem) (query : pystr)
    : result (list Row) :=
  recipe_matches ←
    select_matches (RECIPE_DATABASE (data_sources self)) query;
  product_matches ←
    select_matches (PRODUCT_CATALOG (data_sources self)) query;
  mret (iterrows recipe_matches ++ iterrows product_matches).

Definition bullet (s : pystr) : pystr := py "    * " ++ s ++ [LF].

Definition generate_response (retrieved_info : list GlutenAnalysisResult)
    (query_language : pystr) : pystr :=
  match retrieved_info with
  | [] => py "معلومات غير متوفرة"
  | _ =>
      fold_left
        (fun response result =>
           let gluten_status :=
             if contains_gluten result
             then py "يحتوي على الغلوتين"
             else py "خالٍ من الغلوتين" in
           let response :=
             response ++ py "- " ++ item_name result ++ py ": "
                      ++ gluten_status ++ [LF] in
           let response :=
             match gluten_sources result with
             | [] => response
             | sources =>
                 fold_left (fun response source => response ++ bullet source)
                           sources
                           (response ++ py "  مصادر الغلوتين:" ++ [LF])
             end in
           match alternative_suggestions result with
           | [] => response
           | alts =>
               fold_left (fun response alt => response ++ bullet alt)
                         alts
                         (response ++ py "  بدائل مقترحة:" ++ [LF])
           end)
        retrieved_info
        (py "نتائج البحث:" ++ [LF])
  end.

Definition darija : pystr := py "darija".

(** ** The vocabulary of the specification *)

(** [needle] is a contiguous run of [hay]. *)
Definition substring (needle hay : pystr) : Prop :=
  ∃ pre post, hay = pre ++ needle ++ post.

(** [query] is a substring of [hay] up to letter case: some run of [hay]
    agrees with it character by character under [re.IGNORECASE]. *)
Definition ci_substring `{Runtime} (query hay : pystr) : Prop :=
  ∃ pre run post,
    hay = pre ++ run ++ post
    ∧ Forall2 (fun p c => re.ignorecase_eq p c = true) query run.

(** A query none of whose characters is special in a pattern. *)
Definition plain_query (query : pystr) : Prop :=
  Forall (fun c => re.is_special c = false) query.

(** A table that has the two columns retrieval reads, both holding
    text. *)
Definition searchable (df : DataFrame Row) : Prop :=
  ("name" ∈ columns df ∧ "name" ∈ text_columns df)
  ∧ ("ingredients" ∈ columns df ∧ "ingredients" ∈ text_columns df).

(** The row predicate of the specification's [search]. *)
Definition spec_match `{Runtime} (query : pystr) (row : Row) : Prop :=
  ci_substring query (name row) ∨ ci_substring query (ingredients row).

(** The number of times [t] occurs in [l]. *)
Definition occurrences (t : pystr) (l : list pystr) : nat :=
  length (filter (fun x => x = t) l).

(** A token of [text]: a non-empty run of [text] free of whitespace. *)
Definition verbatim_token (text tok : pystr) : Prop :=
  tok ≠ [] ∧ Forall (fun c => isspace c = false) tok ∧ substring tok text.

(** The two gluten status labels. *)
Definition label_gluten : pystr := py "يحتوي على الغلوتين".
Definition label_gluten_free : pystr := py "خالٍ من الغلوتين".

(** The block of lines the specification gives one result: the name with
    its status label, then the two optional bulleted lists. *)
Definition bulleted (title : pystr) (items : list pystr) : pystr :=
  match items with
  | [] => []
  | _ => title ++ [LF] ++ concat (bullet <$> items)
  end.

Definition result_block (r : GlutenAnalysisResult) : pystr :=
  py "- " ++ item_name r ++ py ": "
  ++ (if contains_gluten r then label_gluten else label_gluten_free) ++ [LF]
  ++ bulleted (py "  مصادر الغلوتين:") (gluten_sources r)
  ++ bulleted (py "  بدائل مقترحة:") (alternative_suggestions r).

(** ** The seed tables of [_prepare_data_files] *)

(** A runtime for data whose non-ASCII characters have no case, such as
    Arabic script, and for queries within the parsed pattern syntax. *)
Definition caseless_runtime : Runtime :=
  {| lower_nonascii := fun s => s;
     ignorecase_nonascii := N.eqb;
     compile_special := fun _ => Raise re_error |}.

Definition recipe (n i : string) (g : bool) : Row :=
  {| name := py n; ingredients := py i; brand := None;
     gluten_status := Some g |}.

Definition product (n i b : string) (g : bool) : Row :=
  {| name := py n; ingredients := py i; brand := Some (py b);
     gluten_status := Some g |}.

Definition seed_recipes : DataFrame Row :=
  {| columns := ["name"; "ingredients"; "gluten_status"]%string;
     text_columns := ["name"; "ingredients"]%string;
     iterrows :=
       [ recipe "Tagine" "lamb" false;
         recipe "Couscous" "wheat semolina" true;
         recipe "Harira" "flour" true;
         recipe "Pastilla" "wheat flour" true;
         recipe "Zaalouk" "eggplant" false ] |}.

Definition seed_products : DataFrame Row :=
  {| columns := ["name"; "ingredients"; "brand"; "gluten_status"]%string;
     text_columns := ["name"; "ingredients"; "brand"]%string;
     iterrows :=
       [ product "Sardines à l'huile" "sardines salt oil" "Conserver" false;
         product "Moroccan Bread" "wheat flour" "Local Bakery" true;
         product "Rice Cookies" "rice flour sugar" "Meknes Sweets" false ] |}.

Definition nutrition (i g a : string) : NutritionRow :=
  {| ingredient := py i; gluten_content := py g; alternative := py a |}.

Definition seed_nutrition : DataFrame NutritionRow :=
  {| columns := ["ingredient"; "gluten_content"; "alternative"]%string;
     text_columns := ["ingredient"; "gluten_content"; "alternative"]%string;
     iterrows :=
       [ nutrition "wheat" "high" "rice";
         nutrition "barley" "high" "millet";
         nutrition "rye" "high" "corn";
         nutrition "couscous" "high" "quinoa" ] |}.

Definition seed_config : gmap string string :=
  {[ "recipe_database_path" := "data/moroccan_recipes.csv";
     "product_catalog_path" := "data/moroccan_products.csv";
     "nutritional_database_path" := "data/nutritional_ref.csv" ]}%string.

(** The three files as [_prepare_data_files] writes them. *)
Definition seed_fs : FileSystem :=
  {| read_rows := fun path =>
       if String.eqb path "data/moroccan_recipes.csv" then Return seed_recipes
       else if String.eqb path "data/moroccan_products.csv"
            then Return seed_products
       else Raise FileNotFoundError;
     read_nutrition := fun path =>
       if String.eqb path "data/nutritional_ref.csv" then Return seed_nutrition
       else Raise FileNotFoundError |}.

(** The same files after the recipe file was emptied: [pd.read_csv] raises
    [EmptyDataError] on it. *)
Definition broken_recipes_fs : FileSystem :=
  {| read_rows := fun path =>
       if String.eqb path "data/moroccan_recipes.csv" then Raise EmptyDataError
       else read_rows seed_fs path;
     read_nutrition := read_nutrition seed_fs |}.

(** The same files with a recipe file whose names are all numbers:
    [pd.read_csv] gives a [name] column of integers, not of text (the row
    fields hold the text form of the cells). *)
Definition numbered_recipes : DataFrame Row :=
  {| columns := ["name"; "ingredients"; "gluten_status"]%string;
     text_columns := ["ingredients"]%string;
     iterrows := [ recipe "1" "lamb" false;
                   recipe "2" "wheat semolina" true ] |}.

Definition numbered_recipes_fs : FileSystem :=
  {| read_rows := fun path =>
       if String.eqb path "data/moroccan_recipes.csv"
       then Return numbered_recipes
       else read_rows seed_fs path;
     read_nutrition := read_nutrition seed_fs |}.

Definition seed_system : RAGSystem := RAGSystem_init seed_config seed_fs.

(** ** The response wrapper of [modify_rag_system] *)

(** One entry of the ["results"] list of the exported document. *)
Module Exported.
Record entry := {
  item_name : pystr;
  contains_gluten : bool;
  gluten_sources : list pystr;
  alternatives : list pystr
}.
Record document := {
  original_response : pystr;
  reshaped_response : pystr;
  results : list entry
}.
End Exported.

(** What a call leaves behind: the two save calls of [ArabicTextHandler]
    (each catches its own exceptions) and what is printed. *)
Inductive event :=
  | save_to_json (data : Exported.document)
  | save_to_txt (text : pystr)
  | print (text : pystr).

(** A bound [generate_response]: the text it returns and what it leaves
    behind. *)
Definition responder : Type :=
  list GlutenAnalysisResult -> pystr -> pystr * list event.

(** The method of [RAGSystem] itself. *)
Definition original_generate_response : responder :=
  fun retrieved_info query_language =>
    (generate_response retrieved_info query_language, []).

(** [enhanced_generate_response] of [modify_rag_system]; [reshape] is
    [ArabicTextHandler.reshape_arabic_text]. *)
Definition enhanced_generate_response (reshape : pystr -> pystr)
    (original_generate_response : responder)
    (retrieved_info : list GlutenAnalysisResult) (query_language : pystr)
    (save_to_file : bool) : pystr * list event :=
  let '(response, log) :=
    original_generate_response retrieved_info query_language in
  let reshaped_response := reshape response in
  let log :=
    if save_to_file
    then log ++ [ save_to_json
                    {| Exported.original_response := response;
                       Exported.reshaped_response := reshaped_response;
                       Exported.results :=
                         (fun result =>
                            {| Exported.item_name := item_name result;
                               Exported.contains_gluten := contains_gluten result;
                               Exported.gluten_sources := gluten_sources result;
                               Exported.alternatives :=
                                 alternative_suggestions result |})
                         <$> retrieved_info |};
                  save_to_txt reshaped_response ]
    else log in
  (reshaped_response,
   log ++ [print (py "Reshaped Response:"); print reshaped_response]).

(** The method after [modify_rag_system], called with the default
    [save_to_file=True]. *)
Definition modify_rag_system (reshape : pystr -> pystr)
    (generate_response : responder) : responder :=
  fun retrieved_info query_language =>
    enhanced_generate_response reshape generate_response
                               retrieved_info query_language true.

(** ** The scan handler of the Streamlit application *)

(** [s.strip()]: [s] without its leading and trailing whitespace. *)
Fixpoint lstrip (s : pystr) : pystr :=
  match s with
  | [] => []
  | c :: s' => if isspace c then lstrip s' else s
  end.

Definition rstrip (s : pystr) : pystr := rev (lstrip (rev s)).

Definition strip (s : pystr) : pystr := rstrip (lstrip s).

(** What the handler puts on the page. *)
Inductive widget :=
  | markdown (body : pystr)
  | warning (body : pystr).

(** [product_scan_mode] once the analysis button is pressed, [ocr_text]
    being the text read off the picture. *)
Definition product_scan_mode `{Runtime} (self : RAGSystem) (ocr_text : pystr)
    : result (list widget) :=
  match strip ocr_text with
  | [] =>
      Return
        [warning (py "لم يتم التعرف على أي نص. يرجى التأكد من جودة الصورة.")]
  | _ =>
      results ← retrieve_relevant_info self ocr_text;
      let response := generate_response results darija in
      mret [markdown (py "#### نتائج التحليل:"); markdown response]
  end.

(** ** Vocabulary of the further properties *)

(** The number of line ends in a text. *)
Definition line_count (s : list N) : nat :=
  length (filter (fun c : N => c = LF) s).

(** The lines a bulleted section takes: none when empty, else a title line
    and one line per item. *)
Definition section_lines (items : list pystr) : nat :=
  match items with
  | [] => 0
  | _ => S (length items)
  end.

(** A result none of whose texts holds a line end. *)
Definition single_line (r : GlutenAnalysisResult) : Prop :=
  (LF ∉ item_name r)
  ∧ Forall (fun s => LF ∉ s) (gluten_sources r)
  ∧ Forall (fun s => LF ∉ s) (alternative_suggestions r).

(** The block of a result as retrieval makes them: the gluten label and
    the list of sources go together. *)
Definition coherent_block (r : GlutenAnalysisResult) : pystr :=
  py "- " ++ item_name r ++ py ": "
  ++ match gluten_sources r with
     | [] => label_gluten_free ++ [LF]
     | sources =>
         label_gluten ++ [LF] ++ py "  مصادر الغلوتين:" ++ [LF]
         ++ concat (bullet <$> sources)
     end
  ++ bulleted (py "  بدائل مقترحة:") (alternative_suggestions r).

(** The lines of the block of one result. *)
Definition block_lines (r : GlutenAnalysisResult) : nat :=
  S (section_lines (gluten_sources r)
     + section_lines (alternative_suggestions r)).

(** A lower-casing of the ASCII capitals of an atom. *)
Definition fold_atom (a : re.atom) : re.atom :=
  match a with
  | re.Lit c => re.Lit (ascii_tolower c)
  | re.Dot => re.Dot
  end.

(** The substitutes of the catalog, in catalog order. *)
Definition catalog_substitutes : list pystr :=
  concat (snd <$> moroccan_alternatives).

(** A runtime whose [re.IGNORECASE] treats a pattern letter and its ASCII
    lower-case form alike against non-ASCII text, as the lower-casing of
    pattern literals does. *)
Definition folds_pattern_case (RT : Runtime) : Prop :=
  ∀ p c, is_ascii c = false →
         ignorecase_nonascii (ascii_tolower p) c = ignorecase_nonascii p c.

(** A table load that fails: the configuration lacks the path, or
    [pd.read_csv] raises on it. *)
Definition load_fails {R : Type} (read : string -> result (DataFrame R))
    (config : gmap string string) (key : string) : Prop :=
  config !! key = None
  ∨ ∃ path e, config !! key = Some path ∧ read path = Raise e.

(** * Properties *)

Example py_wheat : py "wheat" = [0x77; 0x68; 0x65; 0x61; 0x74].
Proof. reflexivity. Qed.

Example py_qamh : py "قمح" = [0x642; 0x645; 0x62D].
Proof. reflexivity. Qed.

Example split_two : split (py "  wheat   semolina ") = [py "wheat"; py "semolina"].
Proof. reflexivity. Qed.

Example special_chars : re.SPECIAL_CHARS =
  [0x2E; 0x5C; 0x5B; 0x7B; 0x28; 0x29; 0x2A; 0x2B; 0x3F; 0x5E; 0x24; 0x7C].
Proof. reflexivity. Qed.

(** ** Tokens of [split] *)

Lemma split_scan_tokens (s cur : pystr) (t : pystr) :
  Forall (fun c => isspace c = false) cur →
  t ∈ split_scan cur s →
  t ≠ [] ∧ Forall (fun c => isspace c = false) t
  ∧ ∃ pre post, cur ++ s = pre ++ t ++ post.
Proof.
  revert cur. induction s as [|c s IH]; intros cur Hcur Ht; simpl in Ht.
  - destruct cur as [|a cur']; [by apply elem_of_nil in Ht|].
    apply list_elem_of_singleton in Ht as ->.
    repeat split; [done|done|]. exists [], []. by rewrite !app_nil_r.
  - destruct (isspace c) eqn:Hc.
    + destruct cur as [|a cur'].
      * destruct (IH [] (Forall_nil_2 _) Ht) as (Hne & Hns & pre & post & E).
        repeat split; [done|done|]. exists (c :: pre), post.
        simpl in *. by rewrite E.
      * apply elem_of_cons in Ht as [-> | Ht].
        -- repeat split; [done|done|]. by exists [], (c :: s).
        -- destruct (IH [] (Forall_nil_2 _) Ht) as (Hne & Hns & pre & post & E).
           repeat split; [done|done|].
           exists ((a :: cur') ++ c :: pre), post.
           simpl in E. rewrite E. by rewrite <- !app_assoc.
    + assert (Hcur' : Forall (fun c => isspace c = false) (cur ++ [c])).
      { apply Forall_app. split; [done|]. by apply Forall_singleton. }
      destruct (IH _ Hcur' Ht) as (Hne & Hns & pre & post & E).
      repeat split; [done|done|]. exists pre, post.
      rewrite <- E. by rewrite <- app_assoc.
Qed.

Lemma split_verbatim (text tok : pystr) :
  tok ∈ split text → verbatim_token text tok.
Proof.
  intros Ht. unfold split in Ht.
  destruct (split_scan_tokens text [] tok (Forall_nil_2 _) Ht)
    as (Hne & Hns & pre & post & E).
  repeat split; [done|done|]. by exists pre, post.
Qed.

(** ** [any] against the list comprehension *)

Lemma any_iff_filter {A : Type} (P : A → Prop) `{!∀ x, Decision (P x)}
    (l : list A) :
  existsb (fun x => bool_decide (P x)) l = true ↔ filter P l ≠ [].
Proof.
  induction l as [|x l IH]; simpl.
  - split; [discriminate|]. intros Hn. by destruct Hn.
  - rewrite filter_cons. destruct (decide (P x)) as [Hx|Hx].
    + rewrite (bool_decide_eq_true_2 _ Hx). simpl. split; [discriminate|done].
    + rewrite (bool_decide_eq_false_2 _ Hx). simpl. exact IH.
Qed.

Lemma occurrences_filter (P : pystr → Prop) `{!∀ x, Decision (P x)}
    (t : pystr) (l : list pystr) :
  P t → occurrences t (filter P l) = occurrences t l.
Proof.
  intros Ht. unfold occurrences. rewrite list_filter_filter.
  f_equal. apply list_filter_iff. intros x. split.
  - by intros [-> _].
  - intros ->. by split.
Qed.

(** ** The two loops of retrieval *)

Lemma loop_append {A B : Type} (f : A → B) (l : list A) (init : list B) :
  fold_left (fun results item => results ++ [f item]) l init
  = init ++ (f <$> l).
Proof.
  revert init. induction l as [|x l IH]; intros init; simpl.
  - by rewrite app_nil_r.
  - rewrite IH. by rewrite <- app_assoc.
Qed.

Lemma mask_rows_filter (f : pystr → bool) (l : list Row) :
  mask_rows l (series_or (f <$> (name <$> l)) (f <$> (ingredients <$> l)))
  = List.filter (fun row => f (name row) || f (ingredients row)) l.
Proof.
  induction l as [|row l IH]; [done|]. simpl.
  destruct (f (name row) || f (ingredients row)); [f_equal|]; exact IH.
Qed.

Lemma filter_bool_sublist {A : Type} (f : A → bool) (l : list A) :
  List.filter f l `sublist_of` l.
Proof.
  induction l as [|x l IH]; simpl; [constructor|].
  destruct (f x); by constructor.
Qed.

Lemma filter_bool_all {A : Type} (f : A → bool) (l : list A) :
  (∀ x, f x = true) → List.filter f l = l.
Proof.
  intros Hf. induction l as [|x l IH]; simpl; [done|].
  by rewrite Hf, IH.
Qed.

Lemma elem_of_filter_bool {A : Type} (f : A → bool) (l : list A) (x : A) :
  x ∈ List.filter f l ↔ x ∈ l ∧ f x = true.
Proof. rewrite !list_elem_of_In. apply filter_In. Qed.

Lemma dot_is_special (c : codepoint) :
  re.is_special c = false → (c =? 0x2E) = false.
Proof.
  intros Hc. destruct (N.eqb_spec c 0x2E) as [->|]; [|done].
  by vm_compute in Hc.
Qed.

Lemma parse_plain (query : pystr) :
  plain_query query → re.parse query = Some (re.Lit <$> query).
Proof.
  induction 1 as [|c query Hc _ IH]; [done|]. simpl.
  by rewrite (dot_is_special c Hc), Hc, IH.
Qed.

(** ** Substrings and the accumulating loops *)

Lemma startswith_spec (hay needle : pystr) :
  startswith hay needle = true ↔ ∃ post, hay = needle ++ post.
Proof.
  revert hay. induction needle as [|n needle IH]; intros hay; simpl.
  - split; [|done]. intros _. by exists hay.
  - destruct hay as [|h hay].
    + split; [discriminate|]. by intros (post & ?).
    + rewrite andb_true_iff, N.eqb_eq, IH. split.
      * intros (-> & post & ->). by exists post.
      * intros (post & E). simplify_eq/=. split; [done|]. by exists post.
Qed.

Lemma substr_in_spec (needle hay : pystr) :
  substr_in needle hay = true ↔ substring needle hay.
Proof.
  unfold substring. induction hay as [|h hay IH]; simpl.
  - rewrite orb_false_r, startswith_spec. split.
    + intros (post & E). by exists [], post.
    + intros (pre & post & E). destruct pre; [|discriminate]. by exists post.
  - rewrite orb_true_iff, IH, startswith_spec. split.
    + intros [(post & E) | (pre & post & E)].
      * by exists [], post.
      * exists (h :: pre), post. simpl. by rewrite E.
    + intros (pre & post & E). destruct pre as [|h' pre].
      * left. by exists post.
      * right. simplify_eq/=. by exists pre, post.
Qed.

Lemma extend_loop {A : Type} (p : pystr → bool)
    (l : list (pystr * list A)) (init : list A) :
  fold_left (fun acc '(k, subs) => if p k then acc ++ subs else acc) l init
  = init ++ concat ((fun '(k, subs) => if p k then subs else []) <$> l).
Proof.
  revert init. induction l as [|[k subs] l IH]; intros init; simpl.
  - by rewrite app_nil_r.
  - rewrite IH. destruct (p k); [by rewrite <- app_assoc|done].
Qed.

Lemma elem_of_extend {A : Type} (p : pystr → bool)
    (l : list (pystr * list A)) (x : A) :
  x ∈ concat ((fun '(k, subs) => if p k then subs else []) <$> l)
  ↔ ∃ k subs, (k, subs) ∈ l ∧ p k = true ∧ x ∈ subs.
Proof.
  induction l as [|[k subs] l IH]; simpl.
  - rewrite elem_of_nil. split; [done|].
    by intros (? & ? & ?%elem_of_nil & _).
  - rewrite elem_of_app, IH. split.
    + intros [Hx | (k' & subs' & Hin & Hp & Hx)].
      * destruct (p k) eqn:Hp; [|by apply elem_of_nil in Hx].
        exists k, subs. split; [left|done].
      * exists k', subs'. split; [by right|done].
    + intros (k' & subs' & [E|Hin]%elem_of_cons & Hp & Hx).
      * simplify_eq. left. by rewrite Hp.
      * right. by exists k', subs'.
Qed.

Lemma bullets_loop (items : list pystr) (init : pystr) :
  fold_left (fun response item => response ++ bullet item) items init
  = init ++ concat (bullet <$> items).
Proof.
  revert init. induction items as [|x items IH]; intros init; simpl.
  - by rewrite app_nil_r.
  - rewrite IH. by rewrite <- app_assoc.
Qed.

Lemma blocks_loop (step : pystr → GlutenAnalysisResult → pystr)
    (results : list GlutenAnalysisResult) (init : pystr) :
  (∀ response r, step response r = response ++ result_block r) →
  fold_left step results init = init ++ concat (result_block <$> results).
Proof.
  intros Hstep. revert init.
  induction results as [|r results IH]; intros init; simpl.
  - by rewrite app_nil_r.
  - rewrite Hstep, IH. by rewrite <- app_assoc.
Qed.

(** C7: for no result the response is the fixed "no information" text;
    otherwise it is the header line followed by one block per result, in
    order: the name with one of the two status labels, then the bulleted
    gluten sources when there are any, then the bulleted alternatives when
    there are any. *)
Theorem C7_response_layout (query_language : pystr) :
  generate_response [] query_language = py "معلومات غير متوفرة"
  ∧ ∀ r rs,
      generate_response (r :: rs) query_language
      = py "نتائج البحث:" ++ [LF] ++ concat (result_block <$> r :: rs).
Proof.
  split; [reflexivity|]. intros r rs. unfold generate_response.
  rewrite blocks_loop; [by rewrite <- app_assoc|].
  intros response x.
  unfold result_block, bulleted, label_gluten, label_gluten_free.
  generalize (py "- "), (py ": "), (py "يحتوي على الغلوتين"),
    (py "خالٍ من الغلوتين"), (py "  مصادر الغلوتين:"), (py "  بدائل مقترحة:").
  intros dash colon yes no sources_title alts_title.
  destruct (gluten_sources x) as [|s ss],
           (alternative_suggestions x) as [|a al];
    rewrite ?bullets_loop, ?app_nil_r, <- ?app_assoc; reflexivity.
Qed.

(** C10: the composed response is the same for any two values of
    [query_language]. *)
Theorem C10_response_ignores_language
    (retrieved_info : list GlutenAnalysisResult) (lang1 lang2 : pystr) :
  generate_response retrieved_info lang1
  = generate_response retrieved_info lang2.
Proof. reflexivity. Qed.

Section Retrieval.
Context `{RT : Runtime}.

Lemma match_here_literal (query s : pystr) :
  re.match_here (re.Lit <$> query) s = true
  ↔ ∃ run post,
      s = run ++ post
      ∧ Forall2 (fun p c => re.ignorecase_eq p c = true) query run.
Proof.
  revert s. induction query as [|p query IH]; intros s; simpl.
  - split; [|done]. intros _. exists [], s. split; [done|constructor].
  - destruct s as [|c s].
    + split; [discriminate|]. intros (run & post & E & HF).
      inversion HF; subst. discriminate.
    + rewrite andb_true_iff, IH. split.
      * intros (Hpc & run & post & -> & HF).
        exists (c :: run), post. split; [done|]. by constructor.
      * intros (run & post & E & HF).
        inversion HF as [|? c' ? run' Hpc HF']; subst.
        simplify_eq/=. split; [done|]. by exists run', post.
Qed.

Lemma search_literal (query s : pystr) :
  re.search (re.Lit <$> query) s = true ↔ ci_substring query s.
Proof.
  unfold ci_substring. induction s as [|c s IH]; simpl.
  - rewrite orb_false_r, match_here_literal. split.
    + intros (run & post & E & HF). by exists [], run, post.
    + intros (pre & run & post & E & HF).
      destruct pre; [|discriminate]. by exists run, post.
  - rewrite orb_true_iff, IH, match_here_literal. split.
    + intros [(run & post & E & HF) | (pre & run & post & E & HF)].
      * by exists [], run, post.
      * exists (c :: pre), run, post. split; [|done]. simpl. by rewrite E.
    + intros (pre & run & post & E & HF). destruct pre as [|c' pre].
      * left. by exists run, post.
      * right. simplify_eq/=. by exists pre, run, post.
Qed.

Lemma search_empty_pattern (s : pystr) : re.search [] s = true.
Proof. by destruct s. Qed.

(** What the mask expression selects when it does not raise. *)
Lemma select_matches_searchable (df : DataFrame Row) (query : pystr)
    (found : pystr → bool) :
  searchable df → re.compile query = Return found →
  select_matches df query
  = Return (boolean_index df
              (series_or (found <$> (name <$> iterrows df))
                         (found <$> (ingredients <$> iterrows df)))).
Proof.
  intros [[Hn Hnt] [Hi Hit]] Hc. unfold select_matches, getitem, str_contains.
  rewrite (bool_decide_eq_true_2 _ Hn), (bool_decide_eq_true_2 _ Hi).
  simpl.
  rewrite (bool_decide_eq_true_2 _ Hnt), (bool_decide_eq_true_2 _ Hit).
  rewrite Hc. by simpl.
Qed.

Lemma select_matches_Return (df m : DataFrame Row) (query : pystr) :
  select_matches df query = Return m →
  searchable df
  ∧ ∃ found,
      re.compile query = Return found
      ∧ iterrows m
        = List.filter (fun row => found (name row) || found (ingredients row))
                      (iterrows df).
Proof.
  unfold select_matches, getitem, str_contains.
  destruct (bool_decide_reflect ("name" ∈ columns df)) as [Hn|Hn]; [|done].
  simpl.
  destruct (bool_decide_reflect ("name" ∈ text_columns df)) as [Hnt|Hnt];
    [|done].
  destruct (re.compile query) as [found|e]; [|done]. simpl.
  destruct (bool_decide_reflect ("ingredients" ∈ columns df)) as [Hi|Hi];
    [|done].
  simpl.
  destruct (bool_decide_reflect ("ingredients" ∈ text_columns df))
    as [Hit|Hit]; [|done].
  simpl. intros [= <-]. split; [done|]. exists found. split; [done|].
  simpl. apply mask_rows_filter.
Qed.

Lemma retrieve_search (self : RAGSystem) (query : pystr) :
  retrieve_relevant_info self query
  = fmap (M := list) (analyse self) <$> search self query.
Proof.
  unfold retrieve_relevant_info, search.
  destruct (select_matches (RECIPE_DATABASE _) query) as [rm|e]; [|done].
  destruct (select_matches (PRODUCT_CATALOG _) query) as [pm|e]; [|done].
  simpl. rewrite !loop_append. simpl. by rewrite fmap_app.
Qed.

Lemma retrieve_Return (self : RAGSystem) (query : pystr)
    (results : list GlutenAnalysisResult) :
  retrieve_relevant_info self query = Return results →
  ∃ matched, search self query = Return matched
             ∧ results = analyse self <$> matched.
Proof.
  rewrite retrieve_search.
  destruct (search self query) as [matched|e]; simpl; [|discriminate].
  intros [= <-]. by exists matched.
Qed.

Lemma analyse_contains_gluten (self : RAGSystem) (item : Row) :
  contains_gluten (analyse self item) = true
  ↔ gluten_sources (analyse self item) ≠ [].
Proof. apply any_iff_filter. Qed.

(** C1: the analysis of every row, and so every result that
    [retrieve_relevant_info] returns, has [contains_gluten] true exactly
    when its [gluten_sources] is not empty. *)
Theorem C1_contains_gluten_iff_sources (self : RAGSystem) :
  (∀ item, contains_gluten (analyse self item) = true
           ↔ gluten_sources (analyse self item) ≠ [])
  ∧ ∀ query results,
      retrieve_relevant_info self query = Return results →
      Forall (fun r => contains_gluten r = true ↔ gluten_sources r ≠ [])
             results.
Proof.
  split; [apply analyse_contains_gluten|].
  intros query results (matched & _ & ->)%retrieve_Return.
  apply Forall_fmap, Forall_forall. intros item _.
  apply analyse_contains_gluten.
Qed.

(** C2: the gluten sources of an item are tokens of its ingredient text
    found in the lexicon: a subsequence of the whitespace tokens (so in
    their order), each a verbatim run of the text and a lexicon member,
    and each lexicon token occurs as often as among the tokens. *)
Theorem C2_sources_are_lexicon_tokens (self : RAGSystem) (item : Row) :
  let tokens := split (ingredients item) in
  let sources := gluten_sources (analyse self item) in
  sources `sublist_of` tokens
  ∧ Forall (fun t => t ∈ tokens
                     ∧ verbatim_token (ingredients item) t
                     ∧ t ∈ gluten_ingredients self) sources
  ∧ ∀ t, t ∈ gluten_ingredients self →
         occurrences t sources = occurrences t tokens.
Proof.
  simpl. split; [apply sublist_filter|]. split.
  - apply Forall_forall. intros t [Hlex Htok]%list_elem_of_filter.
    split; [done|]. split; [by apply split_verbatim|done].
  - intros t Ht. by apply occurrences_filter.
Qed.

(** C3: with the lexicon of [_load_gluten_ingredients], a token is a
    gluten source exactly when it is a whitespace token of the text equal
    to one of the nine lexicon entries; "wheat-free" is never a source,
    and neither it nor a token that differs from "wheat" in case,
    punctuation or suffix makes an item contain gluten. *)
Theorem C3_whole_token_equality (config : gmap string string)
    (fs : FileSystem) (item : Row) (tok : pystr) :
  let self := RAGSystem_init config fs in
  (tok ∈ gluten_sources (analyse self item)
   ↔ tok ∈ split (ingredients item)
     ∧ tok ∈ [py "wheat"; py "barley"; py "rye"; py "couscous";
              py "semolina"; py "bulgur"; py "فريكة"; py "قمح"; py "شعير"])
  ∧ (py "wheat-free" ∉ gluten_sources (analyse self item))
  ∧ ∀ n b g,
      let other := {| name := n;
                      ingredients := py "wheat-free Wheat WHEAT wheat, wheats";
                      brand := b; gluten_status := g |} in
      gluten_sources (analyse self other) = []
      ∧ contains_gluten (analyse self other) = false.
Proof.
  simpl. split; [|split].
  - rewrite list_elem_of_filter. unfold _load_gluten_ingredients.
    rewrite !elem_of_union, !elem_of_singleton, !elem_of_cons, elem_of_nil.
    tauto.
  - intros [Hlex _]%list_elem_of_filter.
    revert Hlex.
    apply (bool_decide_eq_false_1
             (py "wheat-free" ∈ _load_gluten_ingredients)).
    by vm_compute.
  - intros n b g. split; by vm_compute.
Qed.

(** C4 (amended): on tables whose [name] and [ingredients] columns are
    columns of text in which every cell is a string, and for a query
    without pattern-special characters, the rows returned are exactly the
    rows of the two tables in which the query occurs, up to letter case, as
    a substring of the name or of the ingredients; the empty query returns
    every row of both tables. *)
Theorem C4_plain_query_substring_match (self : RAGSystem) (query : pystr) :
  let recipes := RECIPE_DATABASE (data_sources self) in
  let products := PRODUCT_CATALOG (data_sources self) in
  searchable recipes → searchable products → plain_query query →
  ∃ matched,
    search self query = Return matched
    ∧ retrieve_relevant_info self query = Return (analyse self <$> matched)
    ∧ (∀ row, row ∈ matched
              ↔ row ∈ iterrows recipes ++ iterrows products
                ∧ spec_match query row)
    ∧ (query = [] → matched = iterrows recipes ++ iterrows products).
Proof.
  intros recipes products Hr Hp Hq.
  set (found := re.search (re.Lit <$> query)).
  assert (Hc : re.compile query = Return found).
  { unfold re.compile. by rewrite (parse_plain query Hq). }
  exists (List.filter
            (fun row => found (name row) || found (ingredients row))
            (iterrows recipes ++ iterrows products)).
  assert (Hs : search self query
               = Return (List.filter
                   (fun row => found (name row) || found (ingredients row))
                   (iterrows recipes ++ iterrows products))).
  { unfold search. fold recipes products.
    rewrite (select_matches_searchable _ _ _ Hr Hc),
            (select_matches_searchable _ _ _ Hp Hc).
    simpl. rewrite !mask_rows_filter. by rewrite List.filter_app. }
  split; [done|]. split; [rewrite retrieve_search, Hs; reflexivity|]. split.
  - intros row. rewrite elem_of_filter_bool, orb_true_iff.
    unfold spec_match, found. by rewrite !search_literal.
  - intros ->. apply filter_bool_all. intros row. unfold found. simpl.
    by rewrite search_empty_pattern.
Qed.

(** C5: what retrieval returns follows a subsequence of the recipe rows
    followed by a subsequence of the product rows, each in table order:
    the rows searched out are a subsequence of the recipe table followed
    by the product table, and the results are their analyses in that
    order. *)
Theorem C5_results_in_table_order (self : RAGSystem) (query : pystr)
    (results : list GlutenAnalysisResult) :
  let recipes := RECIPE_DATABASE (data_sources self) in
  let products := PRODUCT_CATALOG (data_sources self) in
  retrieve_relevant_info self query = Return results →
  ∃ rm pm,
    rm `sublist_of` iterrows recipes
    ∧ pm `sublist_of` iterrows products
    ∧ (rm ++ pm) `sublist_of` (iterrows recipes ++ iterrows products)
    ∧ search self query = Return (rm ++ pm)
    ∧ results = (analyse self <$> rm) ++ (analyse self <$> pm).
Proof.
  intros recipes products (matched & Hs & ->)%retrieve_Return.
  pose proof Hs as Hs'. unfold search in Hs'. fold recipes products in Hs'.
  destruct (select_matches recipes query) as [rm|e] eqn:Hrm; [|done].
  destruct (select_matches products query) as [pm|e] eqn:Hpm; [|done].
  simpl in Hs'. injection Hs' as <-.
  apply select_matches_Return in Hrm as (_ & f1 & _ & Erm).
  apply select_matches_Return in Hpm as (_ & f2 & _ & Epm).
  exists (iterrows rm), (iterrows pm).
  assert (iterrows rm `sublist_of` iterrows recipes)
    by (rewrite Erm; apply filter_bool_sublist).
  assert (iterrows pm `sublist_of` iterrows products)
    by (rewrite Epm; apply filter_bool_sublist).
  split; [done|]. split; [done|]. split; [by apply sublist_app|].
  split; [done|]. by rewrite fmap_app.
Qed.

(** C6: the suggestions for a name are the substitutes of every catalog
    pair whose keyword is a substring of the lower-cased name, pair by
    pair in catalog order and without removing repeats; the name
    "Couscous" gets "quinoa", "rice" and "corn couscous". *)
Theorem C6_alternatives_by_keyword (item_name : pystr) :
  _generate_alternatives item_name
  = concat ((fun '(keyword, substitutes) =>
               if substr_in keyword (lower item_name)
               then substitutes else [])
            <$> moroccan_alternatives)
  ∧ (∀ alt, alt ∈ _generate_alternatives item_name
            ↔ ∃ keyword substitutes,
                (keyword, substitutes) ∈ moroccan_alternatives
                ∧ substring keyword (lower item_name)
                ∧ alt ∈ substitutes)
  ∧ _generate_alternatives (py "Couscous")
    = [py "quinoa"; py "rice"; py "corn couscous"].
Proof.
  assert (E : ∀ n, _generate_alternatives n
                   = concat ((fun '(keyword, substitutes) =>
                                if substr_in keyword (lower n)
                                then substitutes else [])
                             <$> moroccan_alternatives)).
  { intros n. unfold _generate_alternatives.
    exact (extend_loop (fun k => substr_in k (lower n))
                       moroccan_alternatives []). }
  split; [apply E|]. split; [|by vm_compute].
  intros alt. rewrite E.
  rewrite (elem_of_extend (fun k => substr_in k (lower item_name))).
  split; intros (k & subs & Hin & Hk & Halt); exists k, subs;
    (split; [done|]); (split; [|done]); by apply substr_in_spec.
Qed.

(** C9: two rows with the same name and the same ingredients get the same
    analysis, whatever their brand and declared gluten flag; in
    particular the same [contains_gluten] and [gluten_sources]. *)
Theorem C9_extra_columns_not_consulted (self : RAGSystem) (r1 r2 : Row) :
  name r1 = name r2 → ingredients r1 = ingredients r2 →
  contains_gluten (analyse self r1) = contains_gluten (analyse self r2)
  ∧ gluten_sources (analyse self r1) = gluten_sources (analyse self r2)
  ∧ analyse self r1 = analyse self r2.
Proof.
  intros Hn Hi. unfold analyse. simpl. by rewrite Hn, Hi.
Qed.

(** Retrieval on a table without columns raises before any row is read. *)
Lemma select_matches_empty (query : pystr) :
  select_matches DataFrame_empty query = Raise (KeyError "name").
Proof. reflexivity. Qed.

Lemma retrieve_empty_recipes (self : RAGSystem) (query : pystr) :
  RECIPE_DATABASE (data_sources self) = DataFrame_empty →
  retrieve_relevant_info self query = Raise (KeyError "name").
Proof.
  intros E. unfold retrieve_relevant_info. by rewrite E, select_matches_empty.
Qed.

End Retrieval.

(** ** The loaders *)

Lemma try_load_total {R : Type} (load : result (DataFrame R)) :
  (∃ df, load = Return df ∧ try_load load = df)
  ∨ (∃ e, load = Raise e ∧ try_load load = DataFrame_empty).
Proof. destruct load as [df|e]; [left|right]; eauto. Qed.

Lemma load_recipe_failure (config : gmap string string) (fs : FileSystem)
    (path : string) (e : exn) :
  config !! "recipe_database_path"%string = Some path →
  read_rows fs path = Raise e →
  _load_recipe_database config fs = DataFrame_empty.
Proof.
  intros Hp He. unfold _load_recipe_database, config_get.
  rewrite Hp. simpl. by rewrite He.
Qed.

(** C8: with the recipe file unreadable, the loader substitutes the empty
    frame and the product table loads as usual, yet a query raises
    [KeyError] instead of returning the product rows that match it. *)
Theorem C8_failed_recipe_load_blocks_queries :
  let self := RAGSystem_init seed_config broken_recipes_fs in
  RECIPE_DATABASE (data_sources self) = DataFrame_empty
  ∧ PRODUCT_CATALOG (data_sources self) = seed_products
  ∧ @retrieve_relevant_info caseless_runtime self (py "wheat")
    = Raise (KeyError "name")
  ∧ iterrows <$> @select_matches caseless_runtime seed_products (py "wheat")
    = Return [product "Moroccan Bread" "wheat flour" "Local Bakery" true].
Proof. repeat split; by vm_compute. Qed.

(** ** The theorems at the seed tables *)

Lemma seed_tables_searchable :
  searchable (RECIPE_DATABASE (data_sources seed_system))
  ∧ searchable (PRODUCT_CATALOG (data_sources seed_system)).
Proof.
  split; split; apply (bool_decide_unpack _); vm_compute; exact I.
Defined.

Lemma C1_witness :
  ∃ results,
    @retrieve_relevant_info caseless_runtime seed_system (py "wheat")
    = Return results
    ∧ length results = 3%nat
    ∧ Forall (fun r => contains_gluten r = true ↔ gluten_sources r ≠ [])
             results.
Proof.
  eexists. split; [vm_compute; reflexivity|]. split; [reflexivity|].
  apply (proj2 (@C1_contains_gluten_iff_sources caseless_runtime seed_system)
           (py "wheat")).
  vm_compute. reflexivity.
Defined.

Lemma C2_witness :
  let item := recipe "Couscous" "wheat semolina wheat" true in
  py "wheat" ∈ gluten_ingredients seed_system
  ∧ occurrences (py "wheat")
      (gluten_sources (@analyse caseless_runtime seed_system item))
    = occurrences (py "wheat") (split (ingredients item)).
Proof.
  assert (H : py "wheat" ∈ gluten_ingredients seed_system)
    by (apply (bool_decide_unpack _); vm_compute; exact I).
  split; [exact H|].
  apply (@C2_sources_are_lexicon_tokens caseless_runtime seed_system
           (recipe "Couscous" "wheat semolina wheat" true)).
  exact H.
Defined.

Lemma C4_witness :
  ∃ matched,
    @search caseless_runtime seed_system (py "WHEAT") = Return matched
    ∧ @retrieve_relevant_info caseless_runtime seed_system (py "WHEAT")
      = Return (@analyse caseless_runtime seed_system <$> matched)
    ∧ (∀ row, row ∈ matched
              ↔ row ∈ iterrows (RECIPE_DATABASE (data_sources seed_system))
                      ++ iterrows (PRODUCT_CATALOG (data_sources seed_system))
                ∧ @spec_match caseless_runtime (py "WHEAT") row)
    ∧ (py "WHEAT" = [] →
       matched = iterrows (RECIPE_DATABASE (data_sources seed_system))
                 ++ iterrows (PRODUCT_CATALOG (data_sources seed_system))).
Proof.
  apply (@C4_plain_query_substring_match caseless_runtime seed_system
           (py "WHEAT")).
  - exact (proj1 seed_tables_searchable).
  - exact (proj2 seed_tables_searchable).
  - vm_compute. repeat constructor.
Defined.

Lemma C5_witness :
  ∃ rm pm,
    rm `sublist_of` iterrows seed_recipes
    ∧ pm `sublist_of` iterrows seed_products
    ∧ (rm ++ pm) `sublist_of` (iterrows seed_recipes ++ iterrows seed_products)
    ∧ @search caseless_runtime seed_system (py "flour") = Return (rm ++ pm)
    ∧ (@analyse caseless_runtime seed_system
         <$> [recipe "Harira" "flour" true;
                                recipe "Pastilla" "wheat flour" true;
                                product "Moroccan Bread" "wheat flour"
                                        "Local Bakery" true;
                                product "Rice Cookies" "rice flour sugar"
                                        "Meknes Sweets" false])
      = (@analyse caseless_runtime seed_system <$> rm)
        ++ (@analyse caseless_runtime seed_system <$> pm).
Proof.
  apply (@C5_results_in_table_order caseless_runtime seed_system (py "flour")).
  vm_compute. reflexivity.
Defined.

Lemma C9_witness :
  let declared_free := recipe "Harira" "wheat flour" false in
  let declared_gluten := product "Harira" "wheat flour" "Local Bakery" true in
  gluten_status declared_free ≠ gluten_status declared_gluten
  ∧ contains_gluten (@analyse caseless_runtime seed_system declared_free)
    = contains_gluten (@analyse caseless_runtime seed_system declared_gluten)
  ∧ gluten_sources (@analyse caseless_runtime seed_system declared_free)
    = gluten_sources (@analyse caseless_runtime seed_system declared_gluten)
  ∧ @analyse caseless_runtime seed_system declared_free
    = @analyse caseless_runtime seed_system declared_gluten.
Proof.
  split; [discriminate|].
  apply (@C9_extra_columns_not_consulted caseless_runtime seed_system);
    reflexivity.
Defined.

(** C4, as stated, fails: the query "." is no substring of "Tagine" or of
    "lamb", yet the Tagine row is returned, because the query is searched
    as a pattern; with the recipe table replaced by the empty frame the
    empty query raises instead of returning the product rows; and so it
    does when the names of the recipe table are numbers. *)
Lemma C4_counterexample :
  let tagine := recipe "Tagine" "lamb" false in
  (∃ matched,
     @search caseless_runtime seed_system (py ".") = Return matched
     ∧ tagine ∈ matched
     ∧ ¬ @spec_match caseless_runtime (py ".") tagine)
  ∧ @search caseless_runtime
      (RAGSystem_init seed_config broken_recipes_fs) []
    = Raise (KeyError "name")
  ∧ @search caseless_runtime
      (RAGSystem_init seed_config numbered_recipes_fs) []
    = Raise AttributeError.
Proof.
  intros tagine. split; [|split; by vm_compute].
  eexists. split; [vm_compute; reflexivity|]. split.
  - vm_compute. constructor.
  - unfold spec_match. rewrite <- !(@search_literal caseless_runtime).
    vm_compute. intros [H|H]; discriminate H.
Qed.

(** * Further properties of the code *)

Lemma try_load_fails {R : Type} (read : string → result (DataFrame R))
    (config : gmap string string) (key : string) :
  load_fails read config key →
  try_load (path ← config_get config key; read path) = DataFrame_empty.
Proof.
  unfold config_get. intros [Hk | (path & e & Hk & He)]; rewrite Hk; simpl.
  - reflexivity.
  - by rewrite He.
Qed.

Section Outcomes.
Context `{RT : Runtime}.

(** The mask expression, outcome by outcome, in evaluation order. *)
Lemma select_matches_cases (df : DataFrame Row) (query : pystr) :
  select_matches df query =
  if bool_decide ("name" ∈ columns df)
  then if bool_decide ("name" ∈ text_columns df)
       then match re.compile query with
            | Raise e => Raise e
            | Return found =>
                if bool_decide ("ingredients" ∈ columns df)
                then if bool_decide ("ingredients" ∈ text_columns df)
                     then Return (boolean_index df
                            (series_or
                               (found <$> (name <$> iterrows df))
                               (found <$> (ingredients <$> iterrows df))))
                     else Raise AttributeError
                else Raise (KeyError "ingredients")
            end
       else Raise AttributeError
  else Raise (KeyError "name").
Proof.
  unfold select_matches, getitem, str_contains.
  destruct (bool_decide ("name" ∈ columns df)); [|reflexivity]. simpl.
  destruct (bool_decide ("name" ∈ text_columns df)); [|reflexivity].
  destruct (re.compile query) as [found|e]; [|reflexivity]. simpl.
  destruct (bool_decide ("ingredients" ∈ columns df)); [|reflexivity]. simpl.
  by destruct (bool_decide ("ingredients" ∈ text_columns df)).
Qed.

Lemma retrieve_Return_searchable (self : RAGSystem) (query : pystr)
    (results : list GlutenAnalysisResult) :
  retrieve_relevant_info self query = Return results →
  searchable (RECIPE_DATABASE (data_sources self))
  ∧ searchable (PRODUCT_CATALOG (data_sources self))
  ∧ ∃ found, re.compile query = Return found.
Proof.
  intros (matched & Hs & _)%retrieve_Return. unfold search in Hs.
  destruct (select_matches (RECIPE_DATABASE _) query) as [rm|e] eqn:Hrm;
    [|done].
  destruct (select_matches (PRODUCT_CATALOG _) query) as [pm|e] eqn:Hpm;
    [|done].
  apply select_matches_Return in Hrm as (Hr & found & Hc & _).
  apply select_matches_Return in Hpm as (Hp & _).
  split; [done|]. split; [done|]. by exists found.
Qed.

(** X1: on tables without missing cells, retrieval returns a result list,
    rather than raising, exactly when both tables have the [name] and
    [ingredients] columns, both columns hold text, and the query compiles
    as a pattern. *)
Theorem X1_retrieve_returns_iff (self : RAGSystem) (query : pystr) :
  (∃ results, retrieve_relevant_info self query = Return results)
  ↔ searchable (RECIPE_DATABASE (data_sources self))
    ∧ searchable (PRODUCT_CATALOG (data_sources self))
    ∧ ∃ found, re.compile query = Return found.
Proof.
  split.
  - intros (results & Hret). by apply (retrieve_Return_searchable _ _ results).
  - intros (Hr & Hp & found & Hc). rewrite retrieve_search. unfold search.
    rewrite (select_matches_searchable _ _ _ Hr Hc),
            (select_matches_searchable _ _ _ Hp Hc).
    simpl. eauto.
Qed.

(** X2: which exception retrieval raises, on tables without missing
    cells.  The recipe table is examined first, and in each table the
    [name] column is read and its [.str] accessor taken before the query
    is compiled, the [ingredients] column after.  So a missing [name]
    column gives [KeyError('name')] and a [name] column that is not text
    gives [AttributeError], whatever the query; with a [name] column of
    text, a query that does not compile gives the compile error even when
    [ingredients] is missing or not text; a fault of the [ingredients]
    column shows only for a query that compiles; the product table is
    reached only when the recipe table was searched. *)
Theorem X2_retrieve_error_order (self : RAGSystem) (query : pystr) :
  let recipes := RECIPE_DATABASE (data_sources self) in
  let products := PRODUCT_CATALOG (data_sources self) in
  let name_is_text (df : DataFrame Row) :=
    "name" ∈ columns df ∧ "name" ∈ text_columns df in
  ("name" ∉ columns recipes →
   retrieve_relevant_info self query = Raise (KeyError "name"))
  ∧ ("name" ∈ columns recipes → "name" ∉ text_columns recipes →
     retrieve_relevant_info self query = Raise AttributeError)
  ∧ (∀ e, name_is_text recipes → re.compile query = Raise e →
          retrieve_relevant_info self query = Raise e)
  ∧ (∀ found, name_is_text recipes → re.compile query = Return found →
              "ingredients" ∉ columns recipes →
              retrieve_relevant_info self query
              = Raise (KeyError "ingredients"))
  ∧ (∀ found, name_is_text recipes → re.compile query = Return found →
              "ingredients" ∈ columns recipes →
              "ingredients" ∉ text_columns recipes →
              retrieve_relevant_info self query = Raise AttributeError)
  ∧ (∀ found, searchable recipes → re.compile query = Return found →
              "name" ∉ columns products →
              retrieve_relevant_info self query = Raise (KeyError "name"))
  ∧ (∀ found, searchable recipes → re.compile query = Return found →
              "name" ∈ columns products → "name" ∉ text_columns products →
              retrieve_relevant_info self query = Raise AttributeError)
  ∧ (∀ found, searchable recipes → re.compile query = Return found →
              name_is_text products → "ingredients" ∉ columns products →
              retrieve_relevant_info self query
              = Raise (KeyError "ingredients"))
  ∧ (∀ found, searchable recipes → re.compile query = Return found →
              name_is_text products → "ingredients" ∈ columns products →
              "ingredients" ∉ text_columns products →
              retrieve_relevant_info self query = Raise AttributeError).
Proof.
  intros recipes products name_is_text. unfold retrieve_relevant_info.
  fold recipes products. rewrite !select_matches_cases.
  assert (Hsearched : ∀ found,
            searchable recipes → re.compile query = Return found →
            ∃ m, (if bool_decide ("name" ∈ columns recipes)
                  then if bool_decide ("name" ∈ text_columns recipes)
                       then match re.compile query with
                            | Raise e => Raise e
                            | Return found =>
                                if bool_decide ("ingredients" ∈ columns recipes)
                                then if bool_decide
                                          ("ingredients" ∈ text_columns recipes)
                                     then Return (boolean_index recipes
                                       (series_or
                                          (found <$> (name <$> iterrows recipes))
                                          (found <$> (ingredients
                                                      <$> iterrows recipes))))
                                     else Raise AttributeError
                                else Raise (KeyError "ingredients")
                            end
                       else Raise AttributeError
                  else Raise (KeyError "name")) = Return m).
  { intros found [[Hn Hnt] [Hi Hit]] Hc.
    rewrite (bool_decide_eq_true_2 _ Hn), (bool_decide_eq_true_2 _ Hnt), Hc,
            (bool_decide_eq_true_2 _ Hi), (bool_decide_eq_true_2 _ Hit).
    eauto. }
  repeat split.
  - intros Hn. by rewrite (bool_decide_eq_false_2 _ Hn).
  - intros Hn Hnt.
    by rewrite (bool_decide_eq_true_2 _ Hn), (bool_decide_eq_false_2 _ Hnt).
  - intros e [Hn Hnt] Hc.
    by rewrite (bool_decide_eq_true_2 _ Hn), (bool_decide_eq_true_2 _ Hnt), Hc.
  - intros found [Hn Hnt] Hc Hi.
    by rewrite (bool_decide_eq_true_2 _ Hn), (bool_decide_eq_true_2 _ Hnt), Hc,
               (bool_decide_eq_false_2 _ Hi).
  - intros found [Hn Hnt] Hc Hi Hit.
    by rewrite (bool_decide_eq_true_2 _ Hn), (bool_decide_eq_true_2 _ Hnt), Hc,
               (bool_decide_eq_true_2 _ Hi), (bool_decide_eq_false_2 _ Hit).
  - intros found Hr Hc Hpn.
    destruct (Hsearched found Hr Hc) as [m ->]. simpl.
    by rewrite (bool_decide_eq_false_2 _ Hpn).
  - intros found Hr Hc Hpn Hpnt.
    destruct (Hsearched found Hr Hc) as [m ->]. simpl.
    by rewrite (bool_decide_eq_true_2 _ Hpn), (bool_decide_eq_false_2 _ Hpnt).
  - intros found Hr Hc [Hpn Hpnt] Hpi.
    destruct (Hsearched found Hr Hc) as [m ->]. simpl.
    by rewrite (bool_decide_eq_true_2 _ Hpn), (bool_decide_eq_true_2 _ Hpnt),
               Hc, (bool_decide_eq_false_2 _ Hpi).
  - intros found Hr Hc [Hpn Hpnt] Hpi Hpit.
    destruct (Hsearched found Hr Hc) as [m ->]. simpl.
    by rewrite (bool_decide_eq_true_2 _ Hpn), (bool_decide_eq_true_2 _ Hpnt),
               Hc, (bool_decide_eq_true_2 _ Hpi),
               (bool_decide_eq_false_2 _ Hpit).
Qed.

(** X3: when the load of the recipe table or of the product table fails,
    the loader's empty frame makes every later query raise: no query
    returns, and after a failed recipe load the exception is
    [KeyError('name')] for every query. *)
Theorem X3_failed_table_load_blocks_every_query
    (config : gmap string string) (fs : FileSystem) (query : pystr) :
  let self := RAGSystem_init config fs in
  (load_fails (read_rows fs) config "recipe_database_path" →
   retrieve_relevant_info self query = Raise (KeyError "name"))
  ∧ (load_fails (read_rows fs) config "recipe_database_path"
     ∨ load_fails (read_rows fs) config "product_catalog_path" →
     ∀ results, retrieve_relevant_info self query ≠ Return results).
Proof.
  simpl. split.
  - intros Hf. apply retrieve_empty_recipes. simpl.
    unfold _load_recipe_database. by apply try_load_fails.
  - intros Hf results Hret.
    apply retrieve_Return_searchable in Hret as ([[Hn _] _] & [[Hpn _] _] & _).
    simpl in Hn, Hpn. unfold _load_recipe_database in Hn.
    unfold _load_product_catalog in Hpn.
    destruct Hf as [Hf|Hf]; rewrite (try_load_fails _ _ _ Hf) in *;
      simpl in *; by apply elem_of_nil in Hn || by apply elem_of_nil in Hpn.
Qed.

Lemma retrieve_same_tables (self1 self2 : RAGSystem) (query : pystr) :
  RECIPE_DATABASE (data_sources self1) = RECIPE_DATABASE (data_sources self2) →
  PRODUCT_CATALOG (data_sources self1) = PRODUCT_CATALOG (data_sources self2) →
  gluten_ingredients self1 = gluten_ingredients self2 →
  retrieve_relevant_info self1 query = retrieve_relevant_info self2 query.
Proof.
  intros Hr Hp Hg. unfold retrieve_relevant_info, analyse.
  by rewrite Hr, Hp, Hg.
Qed.

(** X4: the nutritional reference table is never consulted: two file
    systems that give the same recipe and product files lead to the same
    outcome of every query, whatever the nutritional file holds and
    whether or not its load fails. *)
Theorem X4_nutrition_file_not_consulted (config : gmap string string)
    (fs1 fs2 : FileSystem) (query : pystr) :
  (∀ path, read_rows fs1 path = read_rows fs2 path) →
  retrieve_relevant_info (RAGSystem_init config fs1) query
  = retrieve_relevant_info (RAGSystem_init config fs2) query.
Proof.
  intros Hsame. apply retrieve_same_tables; simpl; [| |done].
  - unfold _load_recipe_database.
    destruct (config_get config "recipe_database_path") as [path|e]; [|done].
    simpl. by rewrite Hsame.
  - unfold _load_product_catalog.
    destruct (config_get config "product_catalog_path") as [path|e]; [|done].
    simpl. by rewrite Hsame.
Qed.

(** X5: every result that retrieval returns names a row of one of the two
    tables, carries the confidence 0.8 and no nutritional details, and its
    suggestions are those of its own name; there are no more results than
    rows in the two tables. *)
Theorem X5_result_fields (self : RAGSystem) (query : pystr)
    (results : list GlutenAnalysisResult) :
  let rows := iterrows (RECIPE_DATABASE (data_sources self))
              ++ iterrows (PRODUCT_CATALOG (data_sources self)) in
  retrieve_relevant_info self query = Return results →
  Forall (fun r =>
            (∃ item, item ∈ rows ∧ r = analyse self item
                     ∧ item_name r = name item)
            ∧ confidence_score r = 0x1.999999999999ap-1%float
            ∧ nutritional_details r = ∅
            ∧ alternative_suggestions r = _generate_alternatives (item_name r))
         results
  ∧ (length results ≤ length rows)%nat.
Proof.
  intros rows Hret.
  assert (∃ matched, matched `sublist_of` rows
                     ∧ results = analyse self <$> matched)
    as (matched & Hsub & ->).
  { apply retrieve_Return in Hret as (matched & Hs & ->).
    exists matched. split; [|done]. unfold search in Hs.
    destruct (select_matches (RECIPE_DATABASE _) query) as [rm|e] eqn:Hrm;
      [|done].
    destruct (select_matches (PRODUCT_CATALOG _) query) as [pm|e] eqn:Hpm;
      [|done].
    simpl in Hs. injection Hs as <-.
    apply select_matches_Return in Hrm as (_ & f1 & _ & ->).
    apply select_matches_Return in Hpm as (_ & f2 & _ & ->).
    apply sublist_app; apply filter_bool_sublist. }
  split.
  - apply Forall_fmap, Forall_forall. intros item Hin. simpl.
    split; [|done]. exists item. split; [|done].
    by apply (elem_of_sublist _ _ item Hin Hsub).
  - rewrite length_fmap. by apply sublist_length.
Qed.

End Outcomes.

(** ** Suggestions *)

Lemma extend_sublist {A : Type} (p : pystr → bool)
    (l : list (pystr * list A)) :
  concat ((fun '(k, subs) => if p k then subs else []) <$> l)
  `sublist_of` concat (snd <$> l).
Proof.
  induction l as [|[k subs] l IH]; simpl; [constructor|].
  apply sublist_app; [|done].
  destruct (p k); [done|apply sublist_nil_l].
Qed.

Lemma catalog_substitutes_NoDup : NoDup catalog_substitutes.
Proof. apply (bool_decide_unpack _). by vm_compute. Qed.

Ltac compare_cases :=
  repeat (match goal with
          | |- context [N.leb ?a ?b] => destruct (N.leb_spec a b)
          | |- context [N.ltb ?a ?b] => destruct (N.ltb_spec a b)
          | |- context [N.eqb ?a ?b] => destruct (N.eqb_spec a b)
          end; simpl in *);
  try done; try lia.

Lemma ascii_tolower_idemp (c : codepoint) :
  ascii_tolower (ascii_tolower c) = ascii_tolower c.
Proof. unfold ascii_tolower. compare_cases. Qed.

Lemma is_ascii_tolower (c : codepoint) :
  is_ascii (ascii_tolower c) = is_ascii c.
Proof. unfold ascii_tolower, is_ascii. compare_cases. Qed.

Lemma ascii_tolower_nonascii (c : codepoint) :
  is_ascii c = false → ascii_tolower c = c.
Proof.
  unfold ascii_tolower, is_ascii. intros Hc%N.ltb_ge. compare_cases.
Qed.

Section Suggestions.
Context `{RT : Runtime}.

Lemma alternatives_eq (item_name : pystr) :
  _generate_alternatives item_name
  = concat ((fun '(k, subs) =>
               if substr_in k (lower item_name) then subs else [])
            <$> moroccan_alternatives).
Proof.
  unfold _generate_alternatives.
  exact (extend_loop (fun k => substr_in k (lower item_name))
                     moroccan_alternatives []).
Qed.

Lemma alternatives_sublist (item_name : pystr) :
  _generate_alternatives item_name `sublist_of` catalog_substitutes.
Proof.
  rewrite alternatives_eq.
  apply (extend_sublist (fun k => substr_in k (lower item_name))).
Qed.

(** X6: the suggestions for any name are a subsequence of the seven catalog
    substitutes in catalog order; so no suggestion is given twice and there
    are at most seven. *)
Theorem X6_alternatives_within_catalog (item_name : pystr) :
  _generate_alternatives item_name
    `sublist_of` [py "quinoa"; py "rice"; py "corn couscous";
                  py "corn bread"; py "rice bread";
                  py "rice flour"; py "corn flour"]
  ∧ NoDup (_generate_alternatives item_name)
  ∧ (length (_generate_alternatives item_name) ≤ 7)%nat.
Proof.
  pose proof (alternatives_sublist item_name) as Hsub.
  split; [exact Hsub|]. split.
  - exact (sublist_NoDup _ _ catalog_substitutes_NoDup Hsub).
  - exact (sublist_length _ _ Hsub).
Qed.

(** X7: two ASCII names that differ only in the case of their letters get
    the same suggestions. *)
Theorem X7_alternatives_ignore_ascii_case (name1 name2 : pystr) :
  forallb is_ascii name1 = true → forallb is_ascii name2 = true →
  ascii_tolower <$> name1 = ascii_tolower <$> name2 →
  _generate_alternatives name1 = _generate_alternatives name2.
Proof.
  intros H1 H2 E. rewrite !alternatives_eq. unfold lower.
  rewrite H1, H2.
  change (map ascii_tolower name1) with (ascii_tolower <$> name1).
  change (map ascii_tolower name2) with (ascii_tolower <$> name2).
  by rewrite E.
Qed.

End Suggestions.

(** ** Letter case and exact text in queries *)

Lemma letters_not_special (c : codepoint) :
  (0x41 ≤ c ∧ c ≤ 0x5A) ∨ (0x61 ≤ c ∧ c ≤ 0x7A) → re.is_special c = false.
Proof.
  intros Hc. unfold re.is_special.
  change re.SPECIAL_CHARS
    with [0x2E; 0x5C; 0x5B; 0x7B; 0x28; 0x29; 0x2A; 0x2B; 0x3F; 0x5E; 0x24;
          0x7C].
  simpl.
  repeat match goal with
         | |- context [N.eqb c ?k] => rewrite (proj2 (N.eqb_neq c k)) by lia
         end.
  reflexivity.
Qed.

Lemma is_special_tolower (c : codepoint) :
  re.is_special (ascii_tolower c) = re.is_special c.
Proof.
  unfold ascii_tolower.
  destruct ((0x41 <=? c) && (c <=? 0x5A)) eqn:E; [|done].
  apply andb_true_iff in E as [H1%N.leb_le H2%N.leb_le].
  rewrite !letters_not_special; [done| |]; lia.
Qed.

Lemma dot_tolower (c : codepoint) :
  (ascii_tolower c =? 0x2E) = (c =? 0x2E).
Proof. unfold ascii_tolower. compare_cases. Qed.

Lemma parse_tolower (query : pystr) :
  re.parse (fmap (M:=list) ascii_tolower query) = fmap (M:=list) fold_atom <$> re.parse query.
Proof.
  induction query as [|c query IH]; [done|].
  simpl. change (list_fmap _ _ ascii_tolower query)
    with (fmap (M:=list) ascii_tolower query).
  rewrite dot_tolower, is_special_tolower, IH.
  destruct (c =? 0x2E); [by destruct (re.parse query)|].
  destruct (re.is_special c); [done|]. by destruct (re.parse query).
Qed.

Section Folding.
Context `{RT : Runtime}.

Lemma ignorecase_eq_tolower (p c : codepoint) :
  folds_pattern_case RT →
  re.ignorecase_eq (ascii_tolower p) c = re.ignorecase_eq p c.
Proof.
  intros Hfold. unfold re.ignorecase_eq. rewrite is_ascii_tolower.
  destruct (is_ascii p) eqn:Hp, (is_ascii c) eqn:Hc; simpl.
  - by rewrite ascii_tolower_idemp.
  - by apply Hfold.
  - by rewrite (ascii_tolower_nonascii p Hp).
  - by apply Hfold.
Qed.

Lemma match_here_fold (r : list re.atom) (s : pystr) :
  folds_pattern_case RT →
  re.match_here (fold_atom <$> r) s = re.match_here r s.
Proof.
  intros Hfold. revert s. induction r as [|a r IH]; intros s; [done|].
  destruct s as [|c s]; [done|]. simpl.
  change (list_fmap _ _ fold_atom r) with (fold_atom <$> r). rewrite IH.
  f_equal. destruct a; simpl; [by apply ignorecase_eq_tolower|done].
Qed.

Lemma search_fold (r : list re.atom) (s : pystr) :
  folds_pattern_case RT →
  re.search (fold_atom <$> r) s = re.search r s.
Proof.
  intros Hfold. induction s as [|c s IH]; simpl.
  - by rewrite match_here_fold.
  - by rewrite match_here_fold, IH.
Qed.

Lemma select_matches_tolower (df : DataFrame Row) (query : pystr) :
  folds_pattern_case RT → re.parse query ≠ None →
  select_matches df (fmap (M:=list) ascii_tolower query) = select_matches df query.
Proof.
  intros Hfold Hparse. rewrite !select_matches_cases. unfold re.compile.
  rewrite parse_tolower.
  destruct (re.parse query) as [r|]; [|done]. simpl.
  assert (E : ∀ l : list pystr,
            re.search (fold_atom <$> r) <$> l = re.search r <$> l).
  { intros l. apply list_fmap_ext. intros _ s _. by apply search_fold. }
  by rewrite !E.
Qed.

(** X8: the letter case of a query does not matter: a query made of
    ordinary characters and [.] gives the same outcome as the query with
    its ASCII capitals lowered. *)
Theorem X8_query_case_insensitive (self : RAGSystem) (query : pystr) :
  folds_pattern_case RT → re.parse query ≠ None →
  retrieve_relevant_info self (fmap (M:=list) ascii_tolower query)
  = retrieve_relevant_info self query.
Proof.
  intros Hfold Hparse. unfold retrieve_relevant_info.
  by rewrite !select_matches_tolower.
Qed.

Lemma ignorecase_eq_refl (c : codepoint) :
  is_ascii c = true → re.ignorecase_eq c c = true.
Proof.
  intros Hc. unfold re.ignorecase_eq. rewrite Hc. simpl. apply N.eqb_refl.
Qed.

Lemma substring_ci_substring (query s : pystr) :
  forallb is_ascii query = true → substring query s → ci_substring query s.
Proof.
  intros Hq (pre & post & ->). exists pre, query, post. split; [done|].
  induction query as [|c query IH]; [constructor|].
  simpl in Hq. apply andb_true_iff in Hq as [Hc Hq].
  constructor; [by apply ignorecase_eq_refl|by apply IH].
Qed.

Lemma search_plain (self : RAGSystem) (query : pystr) :
  searchable (RECIPE_DATABASE (data_sources self)) →
  searchable (PRODUCT_CATALOG (data_sources self)) →
  plain_query query →
  search self query
  = Return (List.filter
              (fun row => re.search (re.Lit <$> query) (name row)
                          || re.search (re.Lit <$> query) (ingredients row))
              (iterrows (RECIPE_DATABASE (data_sources self))
               ++ iterrows (PRODUCT_CATALOG (data_sources self)))).
Proof.
  intros Hr Hp Hq.
  assert (Hc : re.compile query = Return (re.search (re.Lit <$> query))).
  { unfold re.compile. by rewrite (parse_plain query Hq). }
  unfold search.
  rewrite (select_matches_searchable _ _ _ Hr Hc),
          (select_matches_searchable _ _ _ Hp Hc).
  simpl. rewrite !mask_rows_filter. by rewrite List.filter_app.
Qed.

(** X9: an item is found by its own name and by each token of its
    ingredient text: when the [name] and [ingredients] columns of both
    tables are columns of text in which every cell is a string, and the
    name or token is ASCII without pattern-special characters, retrieval
    with it as the query returns a list that holds the item's analysis. *)
Theorem X9_found_by_name_and_tokens (self : RAGSystem) (row : Row)
    (query : pystr) :
  let recipes := RECIPE_DATABASE (data_sources self) in
  let products := PRODUCT_CATALOG (data_sources self) in
  searchable recipes → searchable products →
  row ∈ iterrows recipes ++ iterrows products →
  plain_query query → forallb is_ascii query = true →
  query = name row ∨ query ∈ split (ingredients row) →
  ∃ results, retrieve_relevant_info self query = Return results
             ∧ analyse self row ∈ results.
Proof.
  intros recipes products Hr Hp Hrow Hq Hascii Hwhere.
  rewrite retrieve_search, (search_plain self query Hr Hp Hq).
  eexists. split; [reflexivity|].
  apply list_elem_of_fmap_2, elem_of_filter_bool. split; [done|].
  apply orb_true_iff. destruct Hwhere as [-> | Htok].
  - left. apply search_literal, substring_ci_substring; [done|].
    exists [], []. simpl. by rewrite app_nil_r.
  - right. apply search_literal, substring_ci_substring; [done|].
    by destruct (split_verbatim _ _ Htok) as (_ & _ & Hsub).
Qed.

End Folding.

(** ** The composed response *)

Lemma generate_response_cons (r : GlutenAnalysisResult)
    (rs : list GlutenAnalysisResult) (query_language : pystr) :
  generate_response (r :: rs) query_language
  = py "نتائج البحث:" ++ [LF] ++ concat (result_block <$> r :: rs).
Proof.
  unfold generate_response.
  rewrite blocks_loop; [by rewrite <- app_assoc|].
  intros response x.
  unfold result_block, bulleted, label_gluten, label_gluten_free.
  generalize (py "- "), (py ": "), (py "يحتوي على الغلوتين"),
    (py "خالٍ من الغلوتين"), (py "  مصادر الغلوتين:"), (py "  بدائل مقترحة:").
  intros dash colon yes no sources_title alts_title.
  destruct (gluten_sources x) as [|s ss],
           (alternative_suggestions x) as [|a al];
    rewrite ?bullets_loop, ?app_nil_r, <- ?app_assoc; reflexivity.
Qed.

Lemma line_count_app (a b : pystr) :
  line_count (a ++ b) = (line_count a + line_count b)%nat.
Proof. unfold line_count. by rewrite filter_app, length_app. Qed.

Lemma line_count_none (s : pystr) : LF ∉ s → line_count s = 0%nat.
Proof.
  unfold line_count. induction s as [|c s IH]; [done|].
  intros Hs. apply not_elem_of_cons in Hs as [Hc Hs].
  rewrite filter_cons_False by congruence. by apply IH.
Qed.

Lemma line_count_bullets (prefix : pystr) (items : list pystr) :
  line_count prefix = 0%nat → Forall (fun s => LF ∉ s) items →
  line_count (concat ((fun s => prefix ++ s ++ [LF]) <$> items))
  = length items.
Proof.
  intros Hp. induction 1 as [|s items Hs _ IH]; [done|].
  change (line_count ((prefix ++ s ++ [LF])
                      ++ concat ((fun s => prefix ++ s ++ [LF]) <$> items))
          = S (length items)).
  rewrite !line_count_app, Hp, (line_count_none s Hs), IH. reflexivity.
Qed.

Lemma line_count_section (prefix title : pystr) (items : list pystr) :
  line_count prefix = 0%nat → line_count title = 0%nat →
  Forall (fun s => LF ∉ s) items →
  line_count match items with
             | [] => []
             | _ => title ++ [LF]
                    ++ concat ((fun s => prefix ++ s ++ [LF]) <$> items)
             end
  = section_lines items.
Proof.
  intros Hp Ht Hitems. destruct items as [|x items]; [done|].
  rewrite (line_count_app title), (line_count_app [LF]), Ht.
  change (S (line_count (concat ((fun s => prefix ++ s ++ [LF])
                                 <$> x :: items)))
          = S (length (x :: items))).
  f_equal. exact (line_count_bullets prefix _ Hp Hitems).
Qed.

Lemma line_count_block (r : GlutenAnalysisResult) :
  single_line r → line_count (result_block r) = block_lines r.
Proof.
  intros (Hname & Hsources & Halts).
  unfold result_block, block_lines, bulleted, bullet.
  assert (Hg : line_count label_gluten = 0%nat) by reflexivity.
  assert (Hf : line_count label_gluten_free = 0%nat) by reflexivity.
  assert (H1 : line_count (py "- ") = 0%nat) by reflexivity. revert H1.
  assert (H2 : line_count (py ": ") = 0%nat) by reflexivity. revert H2.
  assert (H3 : line_count (py "    * ") = 0%nat) by reflexivity. revert H3.
  assert (H4 : line_count (py "  مصادر الغلوتين:") = 0%nat) by reflexivity.
  revert H4.
  assert (H5 : line_count (py "  بدائل مقترحة:") = 0%nat) by reflexivity.
  revert H5.
  generalize (py "- "), (py ": "), (py "    * "), (py "  مصادر الغلوتين:"),
    (py "  بدائل مقترحة:").
  intros dash colon star t1 t2 Ht2 Ht1 Hstar Hcolon Hdash.
  pose proof (line_count_section star t1 _ Hstar Ht1 Hsources) as E1.
  pose proof (line_count_section star t2 _ Hstar Ht2 Halts) as E2.
  destruct (contains_gluten r); rewrite !line_count_app;
    rewrite Hdash, Hcolon, ?Hg, ?Hf, (line_count_none _ Hname);
    simpl; f_equal; (f_equal; [exact E1|exact E2]).
Qed.

Lemma line_count_blocks (results : list GlutenAnalysisResult) :
  Forall single_line results →
  line_count (concat (result_block <$> results))
  = sum_list (block_lines <$> results).
Proof.
  induction 1 as [|x xs Hx _ IH]; [done|].
  change (line_count (result_block x ++ concat (result_block <$> xs))
          = (block_lines x + sum_list (block_lines <$> xs))%nat).
  by rewrite line_count_app, (line_count_block x Hx), IH.
Qed.

Lemma no_information_iff (retrieved_info : list GlutenAnalysisResult)
    (query_language : pystr) :
  generate_response retrieved_info query_language = py "معلومات غير متوفرة"
  ↔ retrieved_info = [].
Proof.
  destruct retrieved_info as [|r rs]; [done|].
  rewrite generate_response_cons.
  generalize (concat (result_block <$> r :: rs)). intros rest.
  split; [|done]. intros H. vm_compute in H. discriminate H.
Qed.

(** X10: the response is the "no information" text exactly when there is
    no result, and the response is never the empty text. *)
Theorem X10_no_information_iff_no_result
    (retrieved_info : list GlutenAnalysisResult) (query_language : pystr) :
  (generate_response retrieved_info query_language = py "معلومات غير متوفرة"
   ↔ retrieved_info = [])
  ∧ generate_response retrieved_info query_language ≠ [].
Proof.
  split; [apply no_information_iff|].
  destruct retrieved_info as [|r rs]; [done|].
  rewrite generate_response_cons.
  generalize (concat (result_block <$> r :: rs)). intros rest.
  intros H. vm_compute in H. discriminate H.
Qed.

(** X11: the number of lines of a response.  When no name, source or
    suggestion holds a line end, the response for a non-empty result list
    has one header line and, for each result, one line and a title line
    plus one line per item for each of its two lists that is not empty. *)
Theorem X11_response_line_count (r : GlutenAnalysisResult)
    (rs : list GlutenAnalysisResult) (query_language : pystr) :
  Forall single_line (r :: rs) →
  line_count (generate_response (r :: rs) query_language)
  = S (sum_list (block_lines <$> r :: rs)).
Proof.
  intros Hall. rewrite generate_response_cons.
  rewrite (line_count_app (py "نتائج البحث:")), (line_count_app [LF]).
  change (S (line_count (concat (result_block <$> r :: rs)))
          = S (sum_list (block_lines <$> r :: rs))).
  f_equal. exact (line_count_blocks _ Hall).
Qed.

Lemma coherent_block_eq (r : GlutenAnalysisResult) :
  (contains_gluten r = true ↔ gluten_sources r ≠ []) →
  result_block r = coherent_block r.
Proof.
  intros Hiff. unfold result_block, coherent_block, bulleted.
  generalize (py "- "), (py ": "), (py "  مصادر الغلوتين:"),
    (py "  بدائل مقترحة:").
  intros dash colon t1 t2.
  destruct (gluten_sources r) as [|s ss] eqn:Hs,
           (contains_gluten r) eqn:Hc.
  - by destruct (proj1 Hiff eq_refl).
  - by rewrite <- !app_assoc.
  - by rewrite <- !app_assoc.
  - by destruct Hiff as [_ Hiff]; discriminate Hiff.
Qed.

Lemma catalog_substitutes_single_line :
  Forall (fun s : pystr => LF ∉ s) catalog_substitutes.
Proof. apply (bool_decide_unpack _). by vm_compute. Qed.

Section Pipeline.
Context `{RT : Runtime}.

Lemma analyse_shape (self : RAGSystem) (item : Row) :
  Forall (fun t => t ≠ [] ∧ Forall (fun c => isspace c = false) t)
         (gluten_sources (analyse self item))
  ∧ Forall (fun s => LF ∉ s) (alternative_suggestions (analyse self item)).
Proof.
  split.
  - apply Forall_forall. intros t [_ Htok]%list_elem_of_filter.
    by destruct (split_verbatim _ _ Htok) as (Hne & Hns & _).
  - apply Forall_forall. intros alt Halt.
    pose proof (Forall_forall (fun s : pystr => LF ∉ s) catalog_substitutes)
      as [Hall _].
    apply (Hall catalog_substitutes_single_line).
    exact (elem_of_sublist _ _ alt Halt (alternatives_sublist (name item))).
Qed.

(** X12: in every result that retrieval returns, each gluten source is a
    non-empty text without whitespace and no suggestion holds a line end;
    so a result holds a line end only if its name does. *)
Theorem X12_results_are_single_line (self : RAGSystem) (query : pystr)
    (results : list GlutenAnalysisResult) :
  retrieve_relevant_info self query = Return results →
  Forall (fun r =>
            Forall (fun t => t ≠ [] ∧ Forall (fun c => isspace c = false) t)
                   (gluten_sources r)
            ∧ Forall (fun s => LF ∉ s) (alternative_suggestions r)
            ∧ (LF ∉ item_name r → single_line r))
         results.
Proof.
  intros (matched & _ & ->)%retrieve_Return.
  apply Forall_fmap, Forall_forall. intros item _.
  destruct (analyse_shape self item) as [Hsrc Halt].
  split; [done|]. split; [done|]. intros Hname.
  split; [done|]. split; [|done].
  eapply Forall_impl; [exact Hsrc|]. intros t [_ Hns] Hin. simpl in *.
  pose proof (proj1 (Forall_forall _ _) Hns LF Hin) as Hsp.
  by vm_compute in Hsp.
Qed.

(** X13: the response for what retrieval returned.  It is the "no
    information" text exactly when no row matched; otherwise every block
    shows the "contains gluten" label together with the list of sources, or
    the "gluten-free" label and no list of sources. *)
Theorem X13_response_to_retrieval (self : RAGSystem) (query : pystr)
    (results : list GlutenAnalysisResult) (query_language : pystr) :
  retrieve_relevant_info self query = Return results →
  (generate_response results query_language = py "معلومات غير متوفرة"
   ↔ search self query = Return [])
  ∧ (results ≠ [] →
     generate_response results query_language
     = py "نتائج البحث:" ++ [LF] ++ concat (coherent_block <$> results)).
Proof.
  intros (matched & Hs & ->)%retrieve_Return. split.
  - rewrite no_information_iff, Hs. split.
    + by intros ->%fmap_nil_inv.
    + by intros [= ->].
  - destruct matched as [|item matched]; [done|]. intros _.
    rewrite fmap_cons, generate_response_cons.
    f_equal. f_equal. f_equal. rewrite <- fmap_cons.
    rewrite <- !list_fmap_compose. apply list_fmap_ext.
    intros _ x _. simpl. apply coherent_block_eq, analyse_contains_gluten.
Qed.

End Pipeline.

(** ** The scan handler and the response wrapper *)

Lemma lstrip_nil_iff (s : pystr) :
  lstrip s = [] ↔ Forall (fun c => isspace c = true) s.
Proof.
  induction s as [|c s IH]; simpl; [by split|].
  destruct (isspace c) eqn:Hc.
  - rewrite IH. split; [by constructor|]. by inversion 1.
  - split; [done|]. inversion 1; congruence.
Qed.

Lemma lstrip_whitespace (s : pystr) :
  Forall (fun c => isspace c = true) (lstrip s) → lstrip s = [].
Proof.
  induction s as [|c s IH]; simpl; [done|].
  destruct (isspace c) eqn:Hc; [done|]. inversion 1; congruence.
Qed.

Lemma strip_nil_iff (s : pystr) :
  strip s = [] ↔ Forall (fun c => isspace c = true) s.
Proof.
  unfold strip, rstrip. rewrite <- lstrip_nil_iff. split.
  - intros H. apply lstrip_whitespace.
    apply (f_equal (@rev N)) in H. rewrite rev_involutive in H. simpl in H.
    apply lstrip_nil_iff in H.
    apply Forall_forall. intros c Hc.
    apply (proj1 (Forall_forall _ _) H). apply list_elem_of_In, in_rev.
    rewrite rev_involutive. by apply list_elem_of_In.
  - by intros ->.
Qed.

Lemma split_scan_nil_iff (s cur : pystr) :
  split_scan cur s = [] ↔ cur = [] ∧ Forall (fun c => isspace c = true) s.
Proof.
  revert cur. induction s as [|c s IH]; intros cur; simpl.
  - destruct cur; split; try done. by intros [? _].
  - destruct (isspace c) eqn:Hc.
    + destruct cur as [|a cur].
      * rewrite IH. split.
        -- intros [_ H]. split; [done|by constructor].
        -- intros [_ H]. split; [done|]. by inversion H.
      * split; [done|]. by intros [? _].
    + rewrite IH. split.
      * intros [H _]. by destruct cur.
      * intros [_ H]. inversion H; congruence.
Qed.

Lemma split_nil_iff (s : pystr) :
  split s = [] ↔ Forall (fun c => isspace c = true) s.
Proof.
  unfold split. rewrite split_scan_nil_iff. split; [by intros [_ ?]|done].
Qed.

Section Handlers.
Context `{RT : Runtime}.

(** X14: the scan handler warns, without querying, exactly when the text
    read off the picture has no token, that is when it is empty or all
    whitespace; a text with a token is handed whole to retrieval, and the
    page shows the response to what retrieval returns, or the handler
    raises what retrieval raises. *)
Theorem X14_scan_warns_without_token (self : RAGSystem) (ocr_text : pystr) :
  (split ocr_text = [] →
   product_scan_mode self ocr_text
   = Return
       [warning (py "لم يتم التعرف على أي نص. يرجى التأكد من جودة الصورة.")])
  ∧ (split ocr_text ≠ [] →
     product_scan_mode self ocr_text
     = (fun results =>
          [markdown (py "#### نتائج التحليل:");
           markdown (generate_response results darija)])
       <$> retrieve_relevant_info self ocr_text).
Proof.
  unfold product_scan_mode. rewrite split_nil_iff, <- strip_nil_iff. split.
  - by intros ->.
  - intros Hne. destruct (strip ocr_text) as [|c t]; [done|].
    by destruct (retrieve_relevant_info self ocr_text).
Qed.

(** X15: the wrapped response method on what retrieval returned.  It
    returns the reshaped text of the plain response whether or not it
    saves; when it saves, it hands over one document and one text: the
    document holds the plain and the reshaped response and one entry per
    result, in order, and every entry has [contains_gluten] true exactly
    when its [gluten_sources] is not empty. *)
Theorem X15_wrapper_exports_results (reshape : pystr → pystr)
    (self : RAGSystem) (query : pystr)
    (retrieved_info : list GlutenAnalysisResult) (query_language : pystr) :
  retrieve_relevant_info self query = Return retrieved_info →
  let response := generate_response retrieved_info query_language in
  let saving := enhanced_generate_response reshape original_generate_response
                  retrieved_info query_language true in
  let silent := enhanced_generate_response reshape original_generate_response
                  retrieved_info query_language false in
  saving.1 = reshape response
  ∧ silent = (reshape response,
              [print (py "Reshaped Response:"); print (reshape response)])
  ∧ ∃ doc,
      saving.2 = [save_to_json doc; save_to_txt (reshape response);
                  print (py "Reshaped Response:"); print (reshape response)]
      ∧ Exported.original_response doc = response
      ∧ Exported.reshaped_response doc = reshape response
      ∧ Exported.item_name <$> Exported.results doc
        = item_name <$> retrieved_info
      ∧ Forall (fun e => Exported.contains_gluten e = true
                         ↔ Exported.gluten_sources e ≠ [])
               (Exported.results doc).
Proof.
  intros (matched & _ & ->)%retrieve_Return. simpl.
  split; [done|]. split; [done|]. eexists. split; [reflexivity|]. simpl.
  split; [done|]. split; [done|]. split.
  - by rewrite <- !list_fmap_compose.
  - rewrite <- list_fmap_compose. apply Forall_fmap, Forall_forall.
    intros item _. simpl. apply analyse_contains_gluten.
Qed.

End Handlers.

(** ** The further properties at the seed tables *)

Lemma caseless_folds : folds_pattern_case caseless_runtime.
Proof.
  intros p c Hc. unfold is_ascii in Hc. apply N.ltb_ge in Hc. simpl.
  unfold ascii_tolower. compare_cases.
Qed.

Lemma seed_couscous_listed :
  recipe "Couscous" "wheat semolina" true
  ∈ iterrows (RECIPE_DATABASE (data_sources seed_system))
    ++ iterrows (PRODUCT_CATALOG (data_sources seed_system)).
Proof. vm_compute. apply list_elem_of_further, list_elem_of_here. Qed.

Lemma X2_witness :
  @retrieve_relevant_info caseless_runtime seed_system (py "(")
  = Raise re_error.
Proof.
  apply (proj1 (proj2 (proj2 (@X2_retrieve_error_order caseless_runtime
                                seed_system (py "(")))) re_error).
  - exact (proj1 (proj1 seed_tables_searchable)).
  - vm_compute. reflexivity.
Defined.

Lemma X3_witness :
  @retrieve_relevant_info caseless_runtime
    (RAGSystem_init seed_config broken_recipes_fs) (py "wheat")
  = Raise (KeyError "name").
Proof.
  apply (proj1 (@X3_failed_table_load_blocks_every_query caseless_runtime
                  seed_config broken_recipes_fs (py "wheat"))).
  right. exists "data/moroccan_recipes.csv"%string, EmptyDataError.
  split; vm_compute; reflexivity.
Defined.

Lemma X4_witness :
  let no_nutrition :=
    {| read_rows := read_rows seed_fs;
       read_nutrition := fun _ => Raise FileNotFoundError |} in
  @retrieve_relevant_info caseless_runtime
    (RAGSystem_init seed_config seed_fs) (py "wheat")
  = @retrieve_relevant_info caseless_runtime
      (RAGSystem_init seed_config no_nutrition) (py "wheat").
Proof.
  apply (@X4_nutrition_file_not_consulted caseless_runtime seed_config seed_fs).
  intros path. reflexivity.
Defined.

Lemma X5_witness :
  ∃ results,
    @retrieve_relevant_info caseless_runtime seed_system (py "flour")
    = Return results
    ∧ length results = 4%nat
    ∧ Forall (fun r =>
                confidence_score r = 0x1.999999999999ap-1%float
                ∧ nutritional_details r = ∅)
             results.
Proof.
  eexists. split; [vm_compute; reflexivity|]. split; [reflexivity|].
  assert (H : @retrieve_relevant_info caseless_runtime seed_system (py "flour")
              = Return (@analyse caseless_runtime seed_system
                          <$> [recipe "Harira" "flour" true;
                               recipe "Pastilla" "wheat flour" true;
                               product "Moroccan Bread" "wheat flour"
                                       "Local Bakery" true;
                               product "Rice Cookies" "rice flour sugar"
                                       "Meknes Sweets" false]))
    by (vm_compute; reflexivity).
  pose proof (proj1 (@X5_result_fields caseless_runtime seed_system
                       (py "flour") _ H)) as Hall.
  eapply Forall_impl; [exact Hall|]. intros r (_ & Hc & Hn & _). by split.
Defined.

Lemma X7_witness :
  @_generate_alternatives caseless_runtime (py "COUSCOUS Royal")
  = @_generate_alternatives caseless_runtime (py "couscous royal").
Proof.
  apply (@X7_alternatives_ignore_ascii_case caseless_runtime);
    vm_compute; reflexivity.
Defined.

Lemma X8_witness :
  @retrieve_relevant_info caseless_runtime seed_system
    (fmap (M:=list) ascii_tolower (py "WHEAT"))
  = @retrieve_relevant_info caseless_runtime seed_system (py "WHEAT").
Proof.
  apply (@X8_query_case_insensitive caseless_runtime seed_system (py "WHEAT")).
  - exact caseless_folds.
  - vm_compute. discriminate.
Defined.

Lemma X9_witness :
  ∃ results,
    @retrieve_relevant_info caseless_runtime seed_system (py "semolina")
    = Return results
    ∧ @analyse caseless_runtime seed_system
        (recipe "Couscous" "wheat semolina" true) ∈ results.
Proof.
  apply (@X9_found_by_name_and_tokens caseless_runtime seed_system
           (recipe "Couscous" "wheat semolina" true) (py "semolina")).
  - exact (proj1 seed_tables_searchable).
  - exact (proj2 seed_tables_searchable).
  - exact seed_couscous_listed.
  - vm_compute. repeat constructor.
  - vm_compute. reflexivity.
  - right. vm_compute. apply list_elem_of_further, list_elem_of_here.
Defined.

Lemma X11_witness :
  line_count
    (generate_response
       [@analyse caseless_runtime seed_system
          (recipe "Couscous" "wheat semolina" true)] darija)
  = 9%nat.
Proof.
  apply (X11_response_line_count
           (@analyse caseless_runtime seed_system
              (recipe "Couscous" "wheat semolina" true)) [] darija).
  constructor; [|constructor].
  unfold single_line. apply (bool_decide_unpack _). vm_compute. exact I.
Defined.

Lemma X12_witness :
  ∃ results,
    @retrieve_relevant_info caseless_runtime seed_system (py "wheat")
    = Return results
    ∧ length results = 3%nat
    ∧ Forall (fun r =>
                Forall (fun t => t ≠ []
                                 ∧ Forall (fun c => isspace c = false) t)
                       (gluten_sources r)
                ∧ Forall (fun s => LF ∉ s) (alternative_suggestions r)
                ∧ (LF ∉ item_name r → single_line r))
             results.
Proof.
  eexists. split; [vm_compute; reflexivity|]. split; [reflexivity|].
  apply (@X12_results_are_single_line caseless_runtime seed_system
           (py "wheat")).
  vm_compute. reflexivity.
Defined.

Lemma X13_witness :
  let results :=
    [@analyse caseless_runtime seed_system (recipe "Tagine" "lamb" false)] in
  (generate_response results darija = py "معلومات غير متوفرة"
   ↔ @search caseless_runtime seed_system (py "tagine") = Return [])
  ∧ (results ≠ [] →
     generate_response results darija
     = py "نتائج البحث:" ++ [LF] ++ concat (coherent_block <$> results)).
Proof.
  apply (@X13_response_to_retrieval caseless_runtime seed_system
           (py "tagine")
           [@analyse caseless_runtime seed_system
              (recipe "Tagine" "lamb" false)] darija).
  vm_compute. reflexivity.
Defined.

Lemma X14_witness :
  @product_scan_mode caseless_runtime seed_system [0x20; 0x0A; 0x09]
  = Return
      [warning (py "لم يتم التعرف على أي نص. يرجى التأكد من جودة الصورة.")].
Proof.
  apply (proj1 (@X14_scan_warns_without_token caseless_runtime seed_system
                  [0x20; 0x0A; 0x09])).
  reflexivity.
Defined.

Lemma X15_witness :
  ∃ results,
    @retrieve_relevant_info caseless_runtime seed_system (py "wheat")
    = Return results
    ∧ (enhanced_generate_response (@rev N) original_generate_response
         results darija true).1
      = rev (generate_response results darija).
Proof.
  eexists. split; [vm_compute; reflexivity|].
  apply (@X15_wrapper_exports_results caseless_runtime (@rev N) seed_system
           (py "wheat")).
  vm_compute. reflexivity.
Defined.
